(** * Traffic-surge detector ([utils.py]): model and verification

    A shallow embedding of the three classes of [utils.py] -- [Pane],
    [Window] and [AttackDetector] -- followed by the properties that the
    specification states about them.

    Conventions of the embedding.
    - A Python [int] is a [Z]; a Python [float] is an IEEE 754 binary64
      number, the kernel's primitive [float].  [int / int], [float - int]
      and [int > float] convert the integer operand with [float_of_int],
      which rounds to nearest-even, and then work on floats.  Python does
      so for [float - int]; it rounds the exact quotient for [int / int]
      and compares exactly for [int > float].  The three agree with the
      model as long as the integers are below [2^53] in absolute value,
      where the conversion is exact: request counts, far below that bound
      in any log feed.
    - [x ** 2] on a float is the correctly rounded product [x * x].
      Python calls the C library's [pow], whose result is that product
      when the square is a binary64 number, and may otherwise differ from
      it in the last bit, depending on the library.  The deviations
      computed in this file on concrete inputs are of the first kind; the
      other properties hold whatever the deviation is.
    - A Python [dict] is an association list in insertion order: iteration
      order decides the order of floating-point accumulation and of the
      lines written to the alert log.
    - An exception is a value of [exn]; a method of [AttackDetector] is a
      function from the object's state to an outcome, the state it leaves
      behind (mutations made before an exception are kept, as in Python)
      and the events it emitted.
    - The alert log is outside the program: a [log_sink] tells, for a path
      and an address, whether [open(path, 'a+')] followed by [write]
      succeeds or which exception it raises; the event [Logged] records an
      append that succeeded.  Every method that writes takes the sink as an
      argument, a sequence of calls takes one sink per call (a
      [log_schedule]), and every property is proved for all of them. *)

From Stdlib Require Import String ZArith List Bool Lia.
From Stdlib Require Import Floats.
Import ListNotations.

Local Open Scope Z_scope.

(** ** Numbers *)

(** [float(z)]: the integer rounded to nearest-even binary64; exact, and
    the conversion Python makes, for [|z| < 2^53]. *)
Definition float_of_int (z : Z) : float :=
  SF2Prim (binary_normalize prec emax z 0 false).

(** [n > x] for an integer [n] and a float [x]: the comparison of [x]
    with [n] converted, which is Python's exact comparison for
    [|n| < 2^53]. *)
Definition int_gt_float (n : Z) (x : float) : bool :=
  PrimFloat.ltb x (float_of_int n).

(** [a + 2*b], the threshold used by every comparison of the detector. *)
Definition threshold (stats : float * float) : float :=
  (fst stats + float_of_int 2 * snd stats)%float.

(** ** Exceptions *)

(** What [open(path, 'a+')] or [write] may raise on the log file: [OSError]
    or a subclass of it ([FileNotFoundError] for an empty path,
    [PermissionError], ...), or [ValueError] or a subclass of it (a null
    byte in the path, [UnicodeEncodeError]). *)
Inductive sink_exn : Type :=
| OSError
| ValueError.

Inductive exn : Type :=
| ZeroDivisionError
| AttributeError
| TypeError
| IndexError
| SinkError (e : sink_exn).

(** The log file as the program sees it: [sink path line] is [None] when
    appending [line] to the file at [path] succeeds, and the exception
    raised otherwise. *)
Definition log_sink : Type := string -> string -> option sink_exn.

(** A log file that can always be appended to. *)
Definition working_sink : log_sink := fun _ _ => None.

(** The behaviour of the log file over a sequence of calls: [sinks k] is
    its behaviour during call number [k] (a disk can fill up, a directory
    can be removed between two calls). *)
Definition log_schedule : Type := nat -> log_sink.
Definition every_call (sink : log_sink) : log_schedule := fun _ => sink.

(** A log file that cannot be opened when the path is empty
    ([FileNotFoundError], a subclass of [OSError]). *)
Definition path_checking_sink : log_sink :=
  fun path _ => if String.eqb path EmptyString then Some OSError else None.

(** ** Dictionaries from addresses to counters *)

Module Dict.

Definition t : Type := list (string * Z).

Definition empty : t := [].

(** [d.get(k)]: [None] when [k not in d]. *)
Fixpoint get (k : string) (d : t) : option Z :=
  match d with
  | [] => None
  | (k', v) :: r => if String.eqb k' k then Some v else get k r
  end.

(** [d[k] = v]: overwrites in place, a new key goes to the end. *)
Fixpoint set (k : string) (v : Z) (d : t) : t :=
  match d with
  | [] => [(k, v)]
  | (k', v') :: r =>
      if String.eqb k' k then (k', v) :: r else (k', v') :: set k v r
  end.

(** [d.values()], in iteration order. *)
Definition values (d : t) : list Z := map snd d.

(** [sum(d.values())]. *)
Definition sum_values (d : t) : Z := fold_right Z.add 0 (values d).

End Dict.

(** ** class Pane *)

Module Pane.

Record t : Type := mk {
  timestamp : string;
  ip_list : Dict.t;
  n_requests : Z
}.

(** [Pane(timestamp)]. *)
Definition init (ts : string) : t := mk ts Dict.empty 0.

(** [update(self, ip)]. *)
Definition update (ip : string) (self : t) : t :=
  let ip_list' :=
    match Dict.get ip (ip_list self) with
    | None => Dict.set ip 1 (ip_list self)
    | Some v => Dict.set ip (v + 1) (ip_list self)
    end in
  mk (timestamp self) ip_list' (n_requests self + 1).

(** A sequence of [update] calls, oldest first. *)
Definition update_all (ips : list string) (self : t) : t :=
  fold_left (fun p ip => update ip p) ips self.

(** The first loop of [ip_stats]: [numer] and [denom]. *)
Definition ip_totals (d : Dict.t) : Z * Z :=
  fold_left (fun acc kv => (fst acc + snd kv, snd acc + 1)) d (0, 0).

(** The second loop of [ip_stats]: [sd_temp], the sum of [(mean - v)**2]
    in the order of the dictionary, each square taken as the correctly
    rounded product (the C library's [pow] may differ from it in the last
    bit when the square is not a binary64 number). *)
Definition ip_sd_temp (mean : float) (d : Dict.t) : float :=
  fold_left
    (fun acc kv =>
       (acc + (mean - float_of_int (snd kv)) * (mean - float_of_int (snd kv)))%float)
    d (float_of_int 0).

(** [ip_stats(self)]; the division raises on an empty dictionary. *)
Definition ip_stats (self : t) : exn + (float * float) :=
  let '(numer, denom) := ip_totals (ip_list self) in
  if denom =? 0 then inl ZeroDivisionError
  else
    let mean := (float_of_int numer / float_of_int denom)%float in
    let sd := PrimFloat.sqrt (ip_sd_temp mean (ip_list self)) in
    inr (mean, sd).

End Pane.

(** ** class Window *)

Module Window.

Record t : Type := mk {
  window_length : Z;
  panes : list Pane.t;
  ave_requests : float;
  sd_requests : float
}.

(** [Window(window_length)]. *)
Definition init (window_length : Z) : t :=
  mk window_length [] (float_of_int 0) (float_of_int 0).

(** [__len__(self)]. *)
Definition len (self : t) : Z := Z.of_nat (length (panes self)).

(** [__contains__(self, timestamp)]. *)
Definition contains (ts : string) (self : t) : bool :=
  existsb (fun p => String.eqb (Pane.timestamp p) ts) (panes self).

(** [list.pop(0)], which raises [IndexError] on an empty list. *)
Definition pop0 (l : list Pane.t) : exn + list Pane.t :=
  match l with
  | [] => inl IndexError
  | _ :: r => inr r
  end.

(** [panes[-1]], which raises [IndexError] on an empty list. *)
Fixpoint last_pane (l : list Pane.t) : exn + Pane.t :=
  match l with
  | [] => inl IndexError
  | [p] => inr p
  | _ :: r => last_pane r
  end.

(** [shift_window(self, new_pane)]: the [IndexError] of [pop(0)] is
    caught, and the [finally] clause appends in either case. *)
Definition shift_window (new_pane : Pane.t) (self : t) : t :=
  if len self <? window_length self then
    mk (window_length self) (panes self ++ [new_pane])
       (ave_requests self) (sd_requests self)
  else
    let popped :=
      match pop0 (panes self) with
      | inr r => r
      | inl _ => panes self
      end in
    mk (window_length self) (popped ++ [new_pane])
       (ave_requests self) (sd_requests self).

(** A sequence of [shift_window] calls, oldest first. *)
Definition shift_all (ps : list Pane.t) (self : t) : t :=
  fold_left (fun w p => shift_window p w) ps self.

(** The first loop of [get_request_stats]: [numer]. *)
Definition requests_total (ps : list Pane.t) : Z :=
  fold_left (fun acc p => acc + Pane.n_requests p) ps 0.

(** The second loop of [get_request_stats]: [sd_temp], the sum of
    [(ave - n)**2] in the order of the panes, each square taken as the
    correctly rounded product (the C library's [pow] may differ from it in
    the last bit when the square is not a binary64 number). *)
Definition requests_sd_temp (ave : float) (ps : list Pane.t) : float :=
  fold_left
    (fun acc p =>
       (acc + (ave - float_of_int (Pane.n_requests p))
              * (ave - float_of_int (Pane.n_requests p)))%float)
    ps (float_of_int 0).

(** The two loops of [get_request_stats] and the values it assigns to
    [ave_requests] and [sd_requests], on a window that is not empty. *)
Definition stats_of (self : t) : float * float :=
  let numer := requests_total (panes self) in
  let ave := (float_of_int numer / float_of_int (len self))%float in
  let sd := PrimFloat.sqrt (requests_sd_temp ave (panes self)) in
  (ave, sd).

(** [get_request_stats(self)]: the result, and the window with the two
    cached fields assigned; the division raises on an empty window,
    before any assignment. *)
Definition get_request_stats (self : t) : (exn + (float * float)) * t :=
  if len self =? 0 then (inl ZeroDivisionError, self)
  else
    let s := stats_of self in
    (inr s, mk (window_length self) (panes self) (fst s) (snd s)).

End Window.

(** ** Outcomes, events and the state monad of the detector's methods *)

Inductive outcome (A : Type) : Type :=
| Return (a : A)
| Raise (e : exn).

Arguments Return {A} a.
Arguments Raise {A} e.

(** What a call leaves behind besides the state.  [Printed] is a line
    written by [print], [Logged] a line appended to the file at [log_path];
    the other three are ghost events that record the entry into
    [scan_for_attack], [get_request_stats] (with the window's length) and
    [shift_window] (with the pane rolled in). *)
Inductive event : Type :=
| Printed (ts : option string) (n_requests : Z) (attack : bool)
| Logged (path : string) (ip : string)
| ScanCalled
| StatsCalled (len : Z)
| Shifted (p : Pane.t).

Module AttackDetector.

(** [normal_stats] is not created by [__init__]: [None] stands for the
    missing attribute.  [normal_ip_stats] and [normal_request_stats] are
    created holding Python's [None]. *)
Record t : Type := mk {
  window : Window.t;
  current_pane : option Pane.t;
  current_timestamp : option string;
  log_path : string;
  status : bool;
  normal_request_stats : option (float * float);
  normal_ip_stats : option (float * float);
  normal_stats : option (float * float)
}.

(** [AttackDetector(window_length, log_path)]. *)
Definition init (window_length : Z) (log_path : string) : t :=
  mk (Window.init window_length) None None log_path false None None None.

Definition set_window (w : Window.t) (d : t) : t :=
  mk w (current_pane d) (current_timestamp d) (log_path d) (status d)
     (normal_request_stats d) (normal_ip_stats d) (normal_stats d).

Definition set_current (ts : string) (p : Pane.t) (d : t) : t :=
  mk (window d) (Some p) (Some ts) (log_path d) (status d)
     (normal_request_stats d) (normal_ip_stats d) (normal_stats d).

Definition set_current_pane (p : Pane.t) (d : t) : t :=
  mk (window d) (Some p) (current_timestamp d) (log_path d) (status d)
     (normal_request_stats d) (normal_ip_stats d) (normal_stats d).

Definition set_status (b : bool) (d : t) : t :=
  mk (window d) (current_pane d) (current_timestamp d) (log_path d) b
     (normal_request_stats d) (normal_ip_stats d) (normal_stats d).

Definition set_normal_ip_stats (s : float * float) (d : t) : t :=
  mk (window d) (current_pane d) (current_timestamp d) (log_path d)
     (status d) (normal_request_stats d) (Some s) (normal_stats d).

Definition set_normal_stats (s : float * float) (d : t) : t :=
  mk (window d) (current_pane d) (current_timestamp d) (log_path d)
     (status d) (normal_request_stats d) (normal_ip_stats d) (Some s).

(** A method body: outcome, final state, events in order of emission. *)
Definition M (A : Type) : Type := t -> outcome A * t * list event.

Definition ret {A : Type} (a : A) : M A := fun d => (Return a, d, []).

Definition raise {A : Type} (e : exn) : M A := fun d => (Raise e, d, []).

Definition bind {A B : Type} (m : M A) (k : A -> M B) : M B :=
  fun d =>
    match m d with
    | (Return a, d1, ev1) =>
        let '(r, d2, ev2) := k a d1 in (r, d2, ev1 ++ ev2)
    | (Raise e, d1, ev1) => (Raise e, d1, ev1)
    end.

Definition gets {A : Type} (f : t -> A) : M A := fun d => (Return (f d), d, []).

Definition modify (f : t -> t) : M unit := fun d => (Return tt, f d, []).

Definition emit (e : event) : M unit := fun d => (Return tt, d, [e]).

Declare Scope detector_scope.
Delimit Scope detector_scope with detector.
Notation "x <- m ;; k" := (bind m (fun x => k))
  (at level 61, m at next level, right associativity) : detector_scope.
Notation "m ;; k" := (bind m (fun _ => k))
  (at level 61, right associativity) : detector_scope.
Local Open Scope detector_scope.

(** Reading [self.current_pane.<field>]. *)
Definition read_current_pane : M Pane.t :=
  fun d =>
    match current_pane d with
    | Some p => ret p d
    | None => raise AttributeError d
    end.

(** Reading [self.normal_stats[i]]. *)
Definition read_normal_stats : M (float * float) :=
  fun d =>
    match normal_stats d with
    | Some s => ret s d
    | None => raise AttributeError d
    end.

(** Reading [self.normal_ip_stats[i]]. *)
Definition read_normal_ip_stats : M (float * float) :=
  fun d =>
    match normal_ip_stats d with
    | Some s => ret s d
    | None => raise TypeError d
    end.

(** [for ip, v in items: if v > mean + 2*sd: return True], then
    [return False]. *)
Fixpoint any_above (items : Dict.t) : M bool :=
  match items with
  | [] => ret false
  | (_, v) :: r =>
      s <- read_normal_ip_stats ;;
      if int_gt_float v (threshold s) then ret true else any_above r
  end.

(** [check_ip_stats(self)]. *)
Definition check_ip_stats : M bool :=
  st <- gets status ;;
  if st then
    p <- read_current_pane ;;
    any_above (Pane.ip_list p)
  else
    w <- gets window ;;
    match Window.last_pane (Window.panes w) with
    | inl e => raise e
    | inr q =>
        match Pane.ip_stats q with
        | inl e => raise e
        | inr s =>
            modify (set_normal_ip_stats s) ;;
            p <- read_current_pane ;;
            any_above (Pane.ip_list p)
        end
    end.

Section WithSink.

(** The behaviour of the log file during one call. *)
Variable sink : log_sink.

(** [with open(path, 'a+') as log: log.write('{}\n'.format(ip))]: the line
    is logged, or the exception of the sink is raised.  What an append that
    failed may have left in the file is not recorded. *)
Definition append_line (path ip : string) : M unit :=
  match sink path ip with
  | None => emit (Logged path ip)
  | Some e => raise (SinkError e)
  end.

(** The loop of [write_ips_to_logs]. *)
Fixpoint write_above (items : Dict.t) : M unit :=
  match items with
  | [] => ret tt
  | (ip, v) :: r =>
      s <- read_normal_ip_stats ;;
      (if int_gt_float v (threshold s) then
         path <- gets log_path ;; append_line path ip
       else ret tt) ;;
      write_above r
  end.

(** [write_ips_to_logs(self)]. *)
Definition write_ips_to_logs : M unit :=
  p <- read_current_pane ;;
  write_above (Pane.ip_list p).

(** [self.window.get_request_stats()]. *)
Definition window_get_request_stats : M (float * float) :=
  w <- gets window ;;
  emit (StatsCalled (Window.len w)) ;;
  match Window.get_request_stats w with
  | (inl e, _) => raise e
  | (inr s, w') => modify (set_window w') ;; ret s
  end.

(** [scan_for_attack(self)]; [a and b] evaluates [b] only if [a] holds. *)
Definition scan_for_attack : M unit :=
  emit ScanCalled ;;
  st <- gets status ;;
  if st then
    p <- read_current_pane ;;
    ns <- read_normal_stats ;;
    if int_gt_float (Pane.n_requests p) (threshold ns) then
      b <- check_ip_stats ;;
      if b then write_ips_to_logs else modify (set_status false)
    else modify (set_status false)
  else
    s <- window_get_request_stats ;;
    p <- read_current_pane ;;
    if int_gt_float (Pane.n_requests p) (threshold s) then
      b <- check_ip_stats ;;
      if b then
        modify (set_status true) ;;
        modify (set_normal_stats s) ;;
        write_ips_to_logs
      else ret tt
    else ret tt.

(** [timestamp != self.current_timestamp]. *)
Definition differs (ts : string) (current : option string) : bool :=
  match current with
  | Some c => negb (String.eqb ts c)
  | None => true
  end.

(** [process_data(self, ip, timestamp)]. *)
Definition process_data (ip ts : string) : M unit :=
  cp <- gets current_pane ;;
  (match cp with
   | None => modify (set_current ts (Pane.init ts))
   | Some _ => ret tt
   end) ;;
  ct <- gets current_timestamp ;;
  if differs ts ct then
    w <- gets window ;;
    if negb (Window.contains ts w) then
      (if 1 <? Window.len w then scan_for_attack else ret tt) ;;
      ct' <- gets current_timestamp ;;
      p <- read_current_pane ;;
      st <- gets status ;;
      emit (Printed ct' (Pane.n_requests p) st) ;;
      emit (Shifted p) ;;
      modify (fun d => set_window (Window.shift_window p (window d)) d) ;;
      modify (set_current ts (Pane.init ts))
    else ret tt
  else
    p <- read_current_pane ;;
    modify (set_current_pane (Pane.update ip p)).

(** The three components of a run. *)
Definition result {A : Type} (m : M A) (d : t) : outcome A := fst (fst (m d)).
Definition state {A : Type} (m : M A) (d : t) : t := snd (fst (m d)).
Definition events {A : Type} (m : M A) (d : t) : list event := snd (m d).

(** The state after one call, whatever its outcome. *)
Definition step (d : t) (r : string * string) : t :=
  state (process_data (fst r) (snd r)) d.

(** The test applied to every address of the current pane. *)
Definition above (s : float * float) (kv : string * Z) : bool :=
  int_gt_float (snd kv) (threshold s).

(** [process_data] on a state whose current pane exists. *)
Definition process_started (ip ts : string) (p : Pane.t) (d : t)
  : outcome unit * t * list event :=
  if differs ts (current_timestamp d) then
    if negb (Window.contains ts (window d)) then
      match (if 1 <? Window.len (window d) then scan_for_attack d
             else (Return tt, d, [])) with
      | (Return _, d1, ev1) =>
          match current_pane d1 with
          | Some q =>
              (Return tt,
               set_current ts (Pane.init ts)
                 (set_window (Window.shift_window q (window d1)) d1),
               ev1 ++ [Printed (current_timestamp d1) (Pane.n_requests q)
                               (status d1); Shifted q])
          | None => (Raise AttributeError, d1, ev1)
          end
      | (Raise e, d1, ev1) => (Raise e, d1, ev1)
      end
    else (Return tt, d, [])
  else (Return tt, set_current_pane (Pane.update ip p) d, []).

End WithSink.

(** A driver loop: [for ip, ts in records: detector.process_data(ip, ts)];
    an exception ends it.  The log file behaves as [sinks k] during call
    number [k]. *)
Fixpoint feed_from (sinks : log_schedule) (k : nat)
  (records : list (string * string)) : M unit :=
  match records with
  | [] => ret tt
  | (ip, ts) :: r => process_data (sinks k) ip ts ;; feed_from sinks (S k) r
  end.

Definition feed (sinks : log_schedule) : list (string * string) -> M unit :=
  feed_from sinks 0.

(** The state after a sequence of calls made by a caller that carries on
    after an exception. *)
Fixpoint steps_from (sinks : log_schedule) (k : nat)
  (records : list (string * string)) (d : t) : t :=
  match records with
  | [] => d
  | r :: rs => steps_from sinks (S k) rs (step (sinks k) d r)
  end.

Definition steps (sinks : log_schedule) : list (string * string) -> t -> t :=
  steps_from sinks 0.

(** The states a detector can be in: fresh, or after one more call, each
    call with a log file of its own behaviour. *)
Inductive reachable : t -> Prop :=
| reachable_init (window_length : Z) (path : string) :
    reachable (init window_length path)
| reachable_step (sink : log_sink) (d : t) (ip ts : string) :
    reachable d -> reachable (state (process_data sink ip ts) d).

End AttackDetector.

(** ** Notions used to state the properties *)

(** The number of panes a window really keeps: [window_length], but never
    fewer than one, since [shift_window] appends unconditionally. *)
Definition kept (C : Z) : nat := Z.to_nat (Z.max 1 C).

(** The last [n] elements of a list. *)
Definition lastn {A : Type} (n : nat) (l : list A) : list A :=
  skipn (length l - n) l.

(** The mean and the population standard deviation of a list of counts, as
    the specification words them: the sum divided by the count, and the
    square root of the sum of squared deviations from the mean divided by
    the count.  [None] on the empty list. *)
Definition population_stats (vs : list Z) : option (float * float) :=
  match vs with
  | [] => None
  | _ :: _ =>
      let n := float_of_int (Z.of_nat (length vs)) in
      let mean := PrimFloat.div (float_of_int (fold_left Z.add vs 0)) n in
      let ss :=
        fold_left
          (fun acc v =>
             (acc + (mean - float_of_int v) * (mean - float_of_int v))%float)
          vs (float_of_int 0) in
      Some (mean, PrimFloat.sqrt (PrimFloat.div ss n))
  end.

(** The addresses of a pane that made 1, 1, 3 and 3 requests. *)
Definition pane_1133 : Pane.t :=
  Pane.update_all
    ["a"; "b"; "c"; "c"; "c"; "d"; "d"; "d"]%string (Pane.init "t1"%string).

(** A window holding four panes of 1, 1, 3 and 3 requests. *)
Definition window_1133 : Window.t :=
  Window.shift_all
    [Pane.update_all ["a"]%string (Pane.init "t1"%string);
     Pane.update_all ["a"]%string (Pane.init "t2"%string);
     Pane.update_all ["a"; "b"; "c"]%string (Pane.init "t3"%string);
     Pane.update_all ["a"; "b"; "c"]%string (Pane.init "t4"%string)]
    (Window.init 5).

(** Appending one line per address, in order, to the log file at [path]:
    the outcome and the lines logged; the first write that fails ends the
    loop with its exception, the lines before it logged. *)
Fixpoint log_lines (sink : log_sink) (path : string) (ips : list string)
  : outcome unit * list event :=
  match ips with
  | [] => (Return tt, [])
  | ip :: r =>
      match sink path ip with
      | Some e => (Raise (SinkError e), [])
      | None =>
          let '(o, ev) := log_lines sink path r in (o, Logged path ip :: ev)
      end
  end.

(** The baselines read in attack mode are there. *)
Definition baselines_set (d : AttackDetector.t) : Prop :=
  AttackDetector.status d = true ->
  AttackDetector.normal_stats d <> None /\
  AttackDetector.normal_ip_stats d <> None.

(** What one call of [scan_for_attack] may do to a state [d], giving [d1],
    the outcome [o] and the events [ev]. *)
Record scan_post (d d1 : AttackDetector.t) (o : outcome unit)
  (ev : list event) : Prop := {
  sp_pane : AttackDetector.current_pane d1 = AttackDetector.current_pane d;
  sp_ts :
    AttackDetector.current_timestamp d1 = AttackDetector.current_timestamp d;
  sp_path : AttackDetector.log_path d1 = AttackDetector.log_path d;
  sp_panes :
    Window.panes (AttackDetector.window d1) =
    Window.panes (AttackDetector.window d);
  sp_length :
    Window.window_length (AttackDetector.window d1) =
    Window.window_length (AttackDetector.window d);
  sp_normal_stats :
    AttackDetector.normal_stats d1 = AttackDetector.normal_stats d \/
    (AttackDetector.status d = false /\ AttackDetector.status d1 = true /\
     exists s,
       fst (Window.get_request_stats (AttackDetector.window d)) = inr s /\
       AttackDetector.normal_stats d1 = Some s);
  sp_baselines : baselines_set d -> baselines_set d1;
  sp_safe :
    baselines_set d ->
    AttackDetector.current_pane d <> None ->
    Window.panes (AttackDetector.window d) <> [] ->
    o = Return tt \/ o = Raise ZeroDivisionError \/
    exists e, o = Raise (SinkError e);
  sp_scan : In ScanCalled ev;
  sp_stats :
    forall n, In (StatsCalled n) ev ->
              n = Window.len (AttackDetector.window d)
}.

(** The six ways a call [process_data ip ts] on a state [d] can go, with
    its outcome, final state and events: the first call ever; a record of
    the current time unit; a record whose time unit is already in the
    window; a boundary crossed without a scan; a boundary crossed after a
    scan that returned; a scan that raised. *)
Inductive call_shape (sink : log_sink) (ip ts : string)
  (d : AttackDetector.t)
  : outcome unit -> AttackDetector.t -> list event -> Prop :=
| shape_first :
    AttackDetector.current_pane d = None ->
    call_shape sink ip ts d (Return tt)
      (AttackDetector.set_current_pane (Pane.update ip (Pane.init ts))
         (AttackDetector.set_current ts (Pane.init ts) d))
      []
| shape_update (p : Pane.t) :
    AttackDetector.current_pane d = Some p ->
    AttackDetector.differs ts (AttackDetector.current_timestamp d) = false ->
    call_shape sink ip ts d (Return tt)
      (AttackDetector.set_current_pane (Pane.update ip p) d) []
| shape_seen (p : Pane.t) :
    AttackDetector.current_pane d = Some p ->
    AttackDetector.differs ts (AttackDetector.current_timestamp d) = true ->
    Window.contains ts (AttackDetector.window d) = true ->
    call_shape sink ip ts d (Return tt) d []
| shape_roll (p : Pane.t) :
    AttackDetector.current_pane d = Some p ->
    AttackDetector.differs ts (AttackDetector.current_timestamp d) = true ->
    Window.contains ts (AttackDetector.window d) = false ->
    Window.len (AttackDetector.window d) <= 1 ->
    call_shape sink ip ts d (Return tt)
      (AttackDetector.set_current ts (Pane.init ts)
         (AttackDetector.set_window
            (Window.shift_window p (AttackDetector.window d)) d))
      [Printed (AttackDetector.current_timestamp d) (Pane.n_requests p)
         (AttackDetector.status d);
       Shifted p]
| shape_scan_roll (p : Pane.t) (d1 : AttackDetector.t) (ev1 : list event) :
    AttackDetector.current_pane d = Some p ->
    AttackDetector.differs ts (AttackDetector.current_timestamp d) = true ->
    Window.contains ts (AttackDetector.window d) = false ->
    1 < Window.len (AttackDetector.window d) ->
    AttackDetector.scan_for_attack sink d = (Return tt, d1, ev1) ->
    call_shape sink ip ts d (Return tt)
      (AttackDetector.set_current ts (Pane.init ts)
         (AttackDetector.set_window
            (Window.shift_window p (AttackDetector.window d1)) d1))
      (ev1 ++
       [Printed (AttackDetector.current_timestamp d) (Pane.n_requests p)
          (AttackDetector.status d1);
        Shifted p])
| shape_scan_raise (p : Pane.t) (d1 : AttackDetector.t) (ev1 : list event)
    (e : exn) :
    AttackDetector.current_pane d = Some p ->
    AttackDetector.differs ts (AttackDetector.current_timestamp d) = true ->
    Window.contains ts (AttackDetector.window d) = false ->
    1 < Window.len (AttackDetector.window d) ->
    AttackDetector.scan_for_attack sink d = (Raise e, d1, ev1) ->
    call_shape sink ip ts d (Raise e) d1 ev1.

(** A feed that ends in an attack: one request in each of the time units
    [t1] and [t2], then three from one address in [t3]; the first record of
    [t4] retires [t3], which the scan flags. *)
Definition attack_feed : list (string * string) :=
  [("x", "t1"); ("y", "t2"); ("x", "t2"); ("z", "t3"); ("a", "t3");
   ("a", "t3"); ("a", "t3"); ("w", "t4")]%string.

(** The detector after [attack_feed]: under attack. *)
Definition attacked : AttackDetector.t :=
  AttackDetector.steps (every_call working_sink) attack_feed
    (AttackDetector.init 5 "log"%string).

(** The attack goes on in [t4] and stops in [t5]. *)
Definition aftermath : list (string * string) :=
  [("a", "t4"); ("a", "t4"); ("a", "t4"); ("w", "t5"); ("q", "t6")]%string.

(** A detector whose window holds one pane, in the time unit [t2]. *)
Definition one_pane_detector : AttackDetector.t :=
  AttackDetector.steps (every_call working_sink)
    [("x", "t1"); ("y", "t2"); ("x", "t2")]%string
    (AttackDetector.init 5 "log"%string).

(** A detector whose window ends with a pane without addresses while the
    current pane holds a request: panes [t2] and [t3] are empty, [t4] holds
    one request. *)
Definition silent_then_busy : AttackDetector.t :=
  AttackDetector.steps (every_call working_sink)
    [("a", "t1"); ("b", "t2"); ("c", "t3"); ("d", "t4"); ("e", "t4")]%string
    (AttackDetector.init 2 "log"%string).

(** What [scan_for_attack] leaves alone and what it emits, from a state
    [d] to a state [d1] with events [ev], whatever its outcome. *)
Record scan_effects (d d1 : AttackDetector.t) (ev : list event) : Prop := {
  se_request_stats :
    AttackDetector.normal_request_stats d1 =
    AttackDetector.normal_request_stats d;
  se_events :
    forall e, In e ev ->
      e = ScanCalled \/
      e = StatsCalled (Window.len (AttackDetector.window d)) \/
      exists ip, e = Logged (AttackDetector.log_path d) ip;
  se_logged :
    forall path ip, In (Logged path ip) ev ->
      AttackDetector.status d1 = true /\
      exists p, AttackDetector.current_pane d = Some p /\
                In ip (map fst (Pane.ip_list p))
}.

(** A pane whose total is the sum of its counters. *)
Definition pane_ok (p : Pane.t) : Prop :=
  Pane.n_requests p = Dict.sum_values (Pane.ip_list p).

(** What holds of a detector built with [window_length] and [path],
    whatever records it has been given. *)
Record well_formed (window_length : Z) (path : string)
  (d : AttackDetector.t) : Prop := {
  wf_path : AttackDetector.log_path d = path;
  wf_length : Window.window_length (AttackDetector.window d) = window_length;
  wf_request_stats : AttackDetector.normal_request_stats d = None;
  wf_bound : Window.len (AttackDetector.window d) <= Z.max 1 window_length;
  wf_current :
    match AttackDetector.current_pane d, AttackDetector.current_timestamp d with
    | None, None => Window.panes (AttackDetector.window d) = []
    | Some p, Some ts =>
        Pane.timestamp p = ts /\
        Window.contains ts (AttackDetector.window d) = false /\
        pane_ok p
    | _, _ => False
    end;
  wf_panes : Forall pane_ok (Window.panes (AttackDetector.window d));
  wf_distinct :
    NoDup (map Pane.timestamp (Window.panes (AttackDetector.window d)))
}.

(** The events that report a retired time unit. *)
Definition is_report (e : event) : bool :=
  match e with
  | Printed _ _ _ | Shifted _ => true
  | _ => false
  end.

(** * Properties *)

(** ** Pane *)

Lemma Dict_sum_set (k : string) (v : Z) (d : Dict.t) :
  Dict.sum_values (Dict.set k v d) =
  Dict.sum_values d + v - match Dict.get k d with Some w => w | None => 0 end.
Proof.
  unfold Dict.sum_values, Dict.values.
  induction d as [|[k' v'] r IH]; cbn.
  - lia.
  - destruct (String.eqb k' k); cbn; lia.
Qed.

Lemma Pane_update_total (ip : string) (p : Pane.t) :
  Pane.n_requests p = Dict.sum_values (Pane.ip_list p) ->
  Pane.n_requests (Pane.update ip p) =
  Dict.sum_values (Pane.ip_list (Pane.update ip p)).
Proof.
  intros H. unfold Pane.update; cbn [Pane.n_requests Pane.ip_list].
  destruct (Dict.get ip (Pane.ip_list p)) eqn:E;
    rewrite Dict_sum_set, E; lia.
Qed.

(** C6. After any sequence of [update] calls on a fresh Pane, whatever the
    addresses, [n_requests] is the sum of the values of [ip_list]; every
    prefix of a sequence is a sequence, so this holds after every call. *)
Theorem Pane_total_is_sum_of_counts (ts : string) (ips : list string) :
  Pane.n_requests (Pane.update_all ips (Pane.init ts)) =
  Dict.sum_values (Pane.ip_list (Pane.update_all ips (Pane.init ts))).
Proof.
  unfold Pane.update_all.
  assert (G : forall p, Pane.n_requests p = Dict.sum_values (Pane.ip_list p) ->
              Pane.n_requests (fold_left (fun p ip => Pane.update ip p) ips p) =
              Dict.sum_values
                (Pane.ip_list (fold_left (fun p ip => Pane.update ip p) ips p))).
  { induction ips as [|ip ips IH]; intros p Hp; cbn.
    - exact Hp.
    - apply IH, Pane_update_total, Hp. }
  apply G. reflexivity.
Qed.

(** ** Window *)

Lemma tl_skipn {A : Type} (n : nat) (l : list A) :
  tl (skipn n l) = skipn (S n) l.
Proof.
  revert l; induction n as [|n IH]; intros [|a l]; try reflexivity.
  exact (IH l).
Qed.

Lemma skipn_snoc {A : Type} (n : nat) (l : list A) (a : A) :
  (n <= length l)%nat -> skipn n (l ++ [a]) = skipn n l ++ [a].
Proof.
  intros H. rewrite skipn_app.
  replace (n - length l)%nat with 0%nat by lia. reflexivity.
Qed.


Lemma Window_shift_lastn (p : Pane.t) (w : Window.t) (ps : list Pane.t) :
  Window.panes w = lastn (kept (Window.window_length w)) ps ->
  Window.panes (Window.shift_window p w) =
  lastn (kept (Window.window_length w)) (ps ++ [p]).
Proof.
  unfold lastn, kept, Window.shift_window, Window.len. intros H.
  assert (L : length (Window.panes w) =
              Nat.min (length ps) (Z.to_nat (Z.max 1 (Window.window_length w)))).
  { rewrite H, length_skipn. lia. }
  rewrite length_app; cbn [length].
  destruct (Z.ltb_spec (Z.of_nat (length (Window.panes w)))
                       (Window.window_length w)) as [Hlt|Hge];
    cbn [Window.panes].
  - rewrite H.
    replace (length ps - _)%nat with 0%nat by lia.
    replace (length ps + 1 - _)%nat with 0%nat by lia.
    reflexivity.
  - destruct (Window.panes w) as [|q qs] eqn:E;
      cbn [Window.pop0]; cbn [length] in L, Hge.
    + assert (length ps = 0%nat) by lia.
      destruct ps; [|discriminate]. cbn [length app Nat.add].
      replace (1 - _)%nat with 0%nat by lia. reflexivity.
    + change qs with (tl (q :: qs)). rewrite H, tl_skipn.
      rewrite skipn_snoc by lia. f_equal. f_equal. lia.
Qed.

Lemma Window_shift_all_lastn (C : Z) (ps : list Pane.t) :
  Window.panes (Window.shift_all ps (Window.init C)) = lastn (kept C) ps /\
  Window.window_length (Window.shift_all ps (Window.init C)) = C.
Proof.
  unfold Window.shift_all.
  induction ps as [|p ps IH] using rev_ind.
  - split; reflexivity.
  - rewrite fold_left_app; cbn [fold_left]. destruct IH as [IH1 IH2]. split.
    + set (w := fold_left _ ps _) in *.
      rewrite <- IH2 in IH1. rewrite (Window_shift_lastn p w ps IH1), IH2.
      reflexivity.
    + unfold Window.shift_window.
      destruct (_ <? _); cbn [Window.window_length]; exact IH2.
Qed.

(** C1 (amended). For a window built with capacity [C >= 1] and every
    sequence [ps] of [shift_window] calls: the length never exceeds [C], and
    after [C + k] calls the window holds exactly the last [C] panes, in
    arrival order (the first [k] have been evicted, oldest first). *)
Theorem Window_fifo (C : Z) (ps : list Pane.t) :
  1 <= C ->
  Window.len (Window.shift_all ps (Window.init C)) <= C /\
  (forall k : nat,
      length ps = (Z.to_nat C + k)%nat ->
      Window.panes (Window.shift_all ps (Window.init C)) = skipn k ps).
Proof.
  intros HC. destruct (Window_shift_all_lastn C ps) as [H _].
  unfold Window.len. rewrite H. unfold lastn, kept. split.
  - rewrite length_skipn. lia.
  - intros k Hk. f_equal. lia.
Qed.

Lemma Window_fifo_witness :
  1 <= 2 /\
  Window.panes
    (Window.shift_all [Pane.init "t1"%string; Pane.init "t2"%string; Pane.init "t3"%string]
       (Window.init 2)) = [Pane.init "t2"%string; Pane.init "t3"%string].
Proof.
  split; [lia|].
  exact (proj2 (Window_fifo 2 [Pane.init "t1"%string; Pane.init "t2"%string; Pane.init "t3"%string]
                  ltac:(lia)) 1%nat eq_refl).
Defined.

(** C1 as stated fails for capacity 0: one call leaves one pane. *)
Lemma Window_fifo_fails_at_capacity_zero :
  ~ (Window.len (Window.shift_all [Pane.init "t1"%string] (Window.init 0)) <= 0).
Proof. cbv. intros H. apply H. reflexivity. Qed.

(** C4 (amended). On a window built with capacity 0 every [shift_window]
    call completes -- the [IndexError] of the eviction is caught -- and
    appends its pane: after any non-empty sequence of calls the window holds
    exactly the pane of the last call, so its length is 1. *)
Theorem Window_capacity_zero_keeps_last (ps : list Pane.t) (p : Pane.t) :
  Window.panes (Window.shift_all (ps ++ [p]) (Window.init 0)) = [p] /\
  Window.len (Window.shift_all (ps ++ [p]) (Window.init 0)) = 1.
Proof.
  destruct (Window_shift_all_lastn 0 (ps ++ [p])) as [H _].
  assert (G : Window.panes (Window.shift_all (ps ++ [p]) (Window.init 0)) = [p]).
  { rewrite H. unfold lastn, kept. rewrite length_app. cbn [length Z.max Z.to_nat].
    change (Z.to_nat (Z.max 1 0)) with 1%nat.
    replace (length ps + 1 - 1)%nat with (length ps + 0)%nat by lia.
    rewrite skipn_app, Nat.add_0_r, skipn_all.
    replace (length ps - length ps)%nat with 0%nat by lia. reflexivity. }
  split; [exact G|]. unfold Window.len. rewrite G. reflexivity.
Qed.

(** C4 as stated fails: the window does not stay empty. *)
Lemma Window_capacity_zero_not_empty :
  Window.len (Window.shift_window (Pane.init "t1"%string) (Window.init 0)) <> 0.
Proof. cbv. discriminate. Qed.

(** ** AttackDetector: the methods in closed form *)

Section DetectorEquations.

Import AttackDetector.

(** The behaviour of the log file during the call under study. *)
Variable sink : log_sink.

Local Abbreviation write_above := (AttackDetector.write_above sink).
Local Abbreviation write_ips_to_logs := (AttackDetector.write_ips_to_logs sink).
Local Abbreviation scan_for_attack := (AttackDetector.scan_for_attack sink).
Local Abbreviation process_data := (AttackDetector.process_data sink).
Local Abbreviation process_started := (AttackDetector.process_started sink).
Local Abbreviation step := (AttackDetector.step sink).

Lemma log_lines_outcome (path : string) (ips : list string) :
  fst (log_lines sink path ips) = Return tt \/
  exists e, fst (log_lines sink path ips) = Raise (SinkError e).
Proof.
  induction ips as [|ip r IH]; cbn [log_lines].
  - left. reflexivity.
  - destruct (sink path ip) as [e|]; [right; exists e; reflexivity|].
    destruct (log_lines sink path r) as [o ev]. exact IH.
Qed.

Lemma log_lines_events (path : string) (ips : list string) (e : event) :
  In e (snd (log_lines sink path ips)) ->
  exists ip, e = Logged path ip /\ In ip ips.
Proof.
  induction ips as [|ip r IH]; cbn [log_lines].
  - intros [].
  - destruct (sink path ip) as [c|]; [intros []|].
    destruct (log_lines sink path r) as [o ev]. cbn [snd] in *.
    intros [<-|H].
    + exists ip. split; [reflexivity|left; reflexivity].
    + destruct (IH H) as (x & Hx & Hin). exists x. split; [exact Hx|].
      right. exact Hin.
Qed.

Lemma any_above_eq (items : Dict.t) (d : t) :
  any_above items d =
  match items, normal_ip_stats d with
  | [], _ => (Return false, d, [])
  | _ :: _, None => (Raise TypeError, d, [])
  | _ :: _, Some s => (Return (existsb (above s) items), d, [])
  end.
Proof.
  induction items as [|[ip v] r IH]; [reflexivity|].
  cbn [any_above]. unfold bind, read_normal_ip_stats, ret, raise.
  destruct (normal_ip_stats d) as [s|] eqn:E; [|reflexivity].
  cbn [existsb above snd]. fold (above s (ip, v)). unfold above at 1; cbn [snd].
  destruct (int_gt_float v (threshold s)); [reflexivity|].
  rewrite IH. destruct r; reflexivity.
Qed.

Lemma write_above_eq (items : Dict.t) (d : t) :
  write_above items d =
  match items, normal_ip_stats d with
  | [], _ => (Return tt, d, [])
  | _ :: _, None => (Raise TypeError, d, [])
  | _ :: _, Some s =>
      (fst (log_lines sink (log_path d) (map fst (filter (above s) items))),
       d,
       snd (log_lines sink (log_path d) (map fst (filter (above s) items))))
  end.
Proof.
  induction items as [|[ip v] r IH]; [reflexivity|].
  cbn [AttackDetector.write_above].
  unfold append_line, bind, read_normal_ip_stats, ret, raise, gets, emit.
  destruct (normal_ip_stats d) as [s|] eqn:E; [|reflexivity].
  cbn [filter].
  change (above s (ip, v)) with (int_gt_float v (threshold s)).
  destruct (int_gt_float v (threshold s)); cbn [map fst log_lines].
  - destruct (sink (log_path d) ip) as [e|]; [reflexivity|].
    rewrite IH.
    destruct r as [|kv r']; [reflexivity|].
    destruct (log_lines sink (log_path d)
                (map fst (filter (above s) (kv :: r')))) as [o ev].
    destruct o; reflexivity.
  - rewrite IH. destruct r; reflexivity.
Qed.


Lemma process_data_started (ip ts : string) (p : Pane.t) (d : t) :
  current_pane d = Some p ->
  process_data ip ts d = process_started ip ts p d.
Proof.
  intros Hp.
  unfold AttackDetector.process_data, AttackDetector.process_started, bind,
    gets, ret, modify, emit, read_current_pane, raise.
  rewrite Hp.
  destruct (differs ts (current_timestamp d)); [|rewrite Hp; reflexivity].
  destruct (negb (Window.contains ts (window d))); [|reflexivity].
  destruct (1 <? Window.len (window d)).
  - destruct (scan_for_attack d) as [[[u|e] d1] ev1]; [|reflexivity].
    destruct (current_pane d1); cbn; rewrite ?app_nil_r; reflexivity.
  - rewrite Hp. reflexivity.
Qed.

Lemma process_data_fresh (ip ts : string) (d : t) :
  current_pane d = None ->
  process_data ip ts d =
  (Return tt,
   set_current_pane (Pane.update ip (Pane.init ts))
     (set_current ts (Pane.init ts) d), []).
Proof.
  intros Hp.
  unfold AttackDetector.process_data, bind, gets, ret, modify,
    read_current_pane.
  rewrite Hp. cbn. unfold differs. rewrite String.eqb_refl. reflexivity.
Qed.


Lemma last_pane_error (l : list Pane.t) (e : exn) :
  Window.last_pane l = inl e -> l = [].
Proof.
  induction l as [|p [|q r] IH]; cbn; intros H; try discriminate.
  - reflexivity.
  - specialize (IH H). discriminate.
Qed.

Lemma ip_stats_error (p : Pane.t) (e : exn) :
  Pane.ip_stats p = inl e -> e = ZeroDivisionError.
Proof.
  unfold Pane.ip_stats. destruct (Pane.ip_totals (Pane.ip_list p)) as [n m].
  destruct (m =? 0); congruence.
Qed.

Ltac scan_norm :=
  repeat
    (progress
       (cbv beta iota zeta;
        cbn [fst snd app window current_pane current_timestamp log_path status
             normal_request_stats normal_ip_stats normal_stats set_window
             set_current set_current_pane set_status set_normal_ip_stats
             set_normal_stats Window.panes Window.window_length];
        rewrite ?app_nil_r;
        repeat match goal with
          | H : ?x = _ |- context [?x] => rewrite H
          end)).

Ltac scan_leaf :=
  constructor; cbn in *; unfold baselines_set in *; cbn in *;
  try solve
    [ reflexivity | congruence | tauto
    | intuition (try congruence; try discriminate)
    | left; reflexivity
    | intros; intuition (try congruence; try discriminate)
    | right; repeat split; eauto
    | let n := fresh "n" in
      let Hin := fresh "Hin" in
      intros n Hin;
      repeat (destruct Hin as [Hin|Hin]; [try discriminate; try congruence|]);
      try contradiction;
      match goal with
      | Hev : forall e, In e _ -> exists ip, e = Logged _ ip /\ _ |- _ =>
          destruct (Hev _ Hin) as (? & ? & ?); discriminate
      end ].

Ltac scan_log :=
  match goal with
  | |- context [log_lines ?s ?p ?l] =>
      let Hout := fresh "Hout" in
      let Hev := fresh "Hev" in
      pose proof (log_lines_outcome p l) as Hout;
      pose proof (log_lines_events p l) as Hev;
      destruct (log_lines s p l) as [? ?]; cbn [fst snd] in Hout, Hev |- *;
      destruct Hout as [->|[? ->]]
  end.

Lemma scan_for_attack_post (d : t) :
  scan_post d (state scan_for_attack d) (result scan_for_attack d)
    (events scan_for_attack d).
Proof.
  cbv beta iota zeta delta
    [fst snd state result events scan_for_attack check_ip_stats write_ips_to_logs
     window_get_request_stats bind gets modify emit ret raise
     read_current_pane read_normal_stats].
  destruct (status d) eqn:Hst; scan_norm.
  - destruct (current_pane d) as [p|] eqn:Hp; scan_norm; [|scan_leaf].
    destruct (normal_stats d) as [ns|] eqn:Hns; scan_norm; [|scan_leaf].
    destruct (int_gt_float (Pane.n_requests p) (threshold ns)); scan_norm;
      [|scan_leaf].
    rewrite any_above_eq.
    destruct (Pane.ip_list p) as [|kv items] eqn:Hitems; scan_norm;
      [scan_leaf|].
    destruct (normal_ip_stats d) as [nis|] eqn:Hnis; scan_norm; [|scan_leaf].
    destruct (existsb (above nis) (kv :: items)); scan_norm; [|scan_leaf].
    rewrite write_above_eq. scan_norm. scan_log; scan_norm; scan_leaf.
  - assert (Hget : forall q r,
               Window.panes (window d) = q :: r ->
               Window.get_request_stats (window d) =
               (inr (Window.stats_of (window d)),
                Window.mk (Window.window_length (window d)) (q :: r)
                  (fst (Window.stats_of (window d)))
                  (snd (Window.stats_of (window d))))).
    { intros q r E. unfold Window.get_request_stats, Window.len.
      rewrite E. cbn [length].
      destruct (Z.eqb_spec (Z.of_nat (S (length r))) 0) as [H0|_]; [lia|].
      unfold Window.stats_of, Window.len. rewrite E. reflexivity. }
    assert (Hnil : Window.panes (window d) = [] ->
                   Window.get_request_stats (window d) =
                   (inl ZeroDivisionError, window d)).
    { intros E. unfold Window.get_request_stats, Window.len.
      rewrite E. reflexivity. }
    destruct (Window.panes (window d)) as [|q r] eqn:Hpanes.
    + rewrite (Hnil eq_refl). clear Hget Hnil. scan_norm. scan_leaf.
    + rewrite (Hget q r eq_refl).
      assert (Hfst : fst (Window.get_request_stats (window d)) =
                     inr (Window.stats_of (window d)))
        by (rewrite (Hget q r eq_refl); reflexivity).
      clear Hget Hnil.
      set (s := Window.stats_of (window d)) in *.
      scan_norm.
      destruct (current_pane d) as [p|] eqn:Hp; scan_norm; [|scan_leaf].
      destruct (int_gt_float (Pane.n_requests p) (threshold s)); scan_norm;
        [|scan_leaf].
      destruct (Window.last_pane (q :: r)) as [e|q0] eqn:Hlast; scan_norm.
      { apply last_pane_error in Hlast. discriminate. }
      destruct (Pane.ip_stats q0) as [e|nis] eqn:Hstats; scan_norm.
      { apply ip_stats_error in Hstats. subst e. scan_leaf. }
      rewrite any_above_eq. scan_norm.
      destruct (Pane.ip_list p) as [|kv items] eqn:Hitems; scan_norm;
        [scan_leaf|].
      destruct (existsb (above nis) (kv :: items)); scan_norm; [|scan_leaf].
      rewrite write_above_eq. scan_norm. scan_log; scan_norm; scan_leaf.
Qed.


Lemma scan_for_attack_inv (d d1 : t) (o : outcome unit) (ev : list event) :
  scan_for_attack d = (o, d1, ev) -> scan_post d d1 o ev.
Proof.
  intros H. pose proof (scan_for_attack_post d) as P.
  unfold state, result, events in P. rewrite H in P. exact P.
Qed.

Lemma process_data_shape (ip ts : string) (d : t) :
  call_shape sink ip ts d (result (process_data ip ts) d)
    (state (process_data ip ts) d) (events (process_data ip ts) d).
Proof.
  unfold result, state, events.
  destruct (current_pane d) as [p|] eqn:Hp.
  2:{ rewrite (process_data_fresh ip ts d Hp). apply shape_first, Hp. }
  rewrite (process_data_started ip ts p d Hp). unfold AttackDetector.process_started.
  destruct (differs ts (current_timestamp d)) eqn:Hd.
  2:{ apply shape_update; assumption. }
  destruct (Window.contains ts (window d)) eqn:Hc; cbn [negb].
  { eapply shape_seen; eassumption. }
  destruct (Z.ltb_spec 1 (Window.len (window d))) as [Hl|Hl].
  - destruct (scan_for_attack d) as [[[[]|e] d1] ev1] eqn:Hs.
    + pose proof (scan_for_attack_inv _ _ _ _ Hs) as P.
      rewrite (sp_pane _ _ _ _ P), (sp_ts _ _ _ _ P), Hp. cbn [fst snd].
      apply shape_scan_roll; assumption.
    + eapply shape_scan_raise; eassumption.
  - rewrite Hp. cbn [fst snd app]. apply shape_roll; assumption.
Qed.

End DetectorEquations.

(** ** The two statistics *)

(** C2. On a pane whose four addresses made 1, 1, 3 and 3 requests (mean 2,
    squared deviations summing to 4) [ip_stats] returns the square root of
    the sum, 2, while the population standard deviation is the square root
    of 4/4, 1: the division by the number of addresses is missing. *)
Theorem Pane_ip_stats_omits_division :
  Dict.values (Pane.ip_list pane_1133) = [1; 1; 3; 3] /\
  Pane.ip_stats pane_1133 = inr (2%float, 2%float) /\
  population_stats (Dict.values (Pane.ip_list pane_1133)) =
  Some (2%float, 1%float).
Proof. repeat split; vm_compute; reflexivity. Qed.

(** C3. On a window whose four panes hold 1, 1, 3 and 3 requests
    [get_request_stats] returns the square root of the sum of squared
    deviations, 2, while the population standard deviation is 1: the
    division by the number of panes is missing. *)
Theorem Window_request_stats_omits_division :
  map Pane.n_requests (Window.panes window_1133) = [1; 1; 3; 3] /\
  fst (Window.get_request_stats window_1133) = inr (2%float, 2%float) /\
  population_stats (map Pane.n_requests (Window.panes window_1133)) =
  Some (2%float, 1%float).
Proof. repeat split; vm_compute; reflexivity. Qed.

(** ** AttackDetector: single calls *)

Section DetectorClaims.

Import AttackDetector.

(** The behaviour of the log file during the call under study. *)
Variable sink : log_sink.

Local Abbreviation write_above := (AttackDetector.write_above sink).
Local Abbreviation write_ips_to_logs := (AttackDetector.write_ips_to_logs sink).
Local Abbreviation scan_for_attack := (AttackDetector.scan_for_attack sink).
Local Abbreviation process_data := (AttackDetector.process_data sink).
Local Abbreviation process_started := (AttackDetector.process_started sink).
Local Abbreviation step := (AttackDetector.step sink).

Lemma step_normal_stats (d : t) (r : string * string) :
  normal_stats (step d r) = normal_stats d \/
  (status d = false /\ status (step d r) = true /\
   exists s,
     fst (Window.get_request_stats (window d)) = inr s /\
     normal_stats (step d r) = Some s).
Proof.
  unfold step.
  destruct (process_data_shape sink (fst r) (snd r) d)
    as [Hp|p Hp Hd|p Hp Hd Hc|p Hp Hd Hc Hl|p d1 ev1 Hp Hd Hc Hl Hs
        |p d1 ev1 e Hp Hd Hc Hl Hs];
    try (left; reflexivity);
    apply scan_for_attack_inv in Hs;
    exact (sp_normal_stats _ _ _ _ Hs).
Qed.

(** C8. When the window holds at most one pane, a [process_data] call --
    a boundary-crossing one in particular -- returns without raising, does
    not enter [scan_for_attack] and leaves the status as it was; and in any
    call whatever, [get_request_stats] is only ever entered on a window of
    two panes or more. *)
Theorem no_scan_below_two_panes (d : t) (ip ts : string) :
  (Window.len (window d) <= 1 ->
   result (process_data ip ts) d = Return tt /\
   status (state (process_data ip ts) d) = status d /\
   ~ In ScanCalled (events (process_data ip ts) d)) /\
  (forall n, In (StatsCalled n) (events (process_data ip ts) d) -> 2 <= n).
Proof.
  destruct (process_data_shape sink ip ts d)
    as [Hp|p Hp Hd|p Hp Hd Hc|p Hp Hd Hc Hl|p d1 ev1 Hp Hd Hc Hl Hs
        |p d1 ev1 e Hp Hd Hc Hl Hs].
  1-4: split;
    [ intros _; repeat split; cbn; intuition discriminate
    | intros n Hn; cbn in Hn; intuition discriminate ].
  - apply scan_for_attack_inv in Hs. split; [lia|].
    intros n Hn. apply in_app_or in Hn. destruct Hn as [Hn|Hn].
    + rewrite (sp_stats _ _ _ _ Hs n Hn). lia.
    + cbn in Hn. intuition discriminate.
  - apply scan_for_attack_inv in Hs. split; [lia|].
    intros n Hn. rewrite (sp_stats _ _ _ _ Hs n Hn). lia.
Qed.

Lemma shift_window_panes (p : Pane.t) (w1 w2 : Window.t) :
  Window.panes w1 = Window.panes w2 ->
  Window.window_length w1 = Window.window_length w2 ->
  Window.panes (Window.shift_window p w1) =
  Window.panes (Window.shift_window p w2).
Proof.
  intros H1 H2. unfold Window.shift_window, Window.len. rewrite H1, H2.
  destruct (_ <? _); reflexivity.
Qed.

Lemma differs_neq (ts t0 : string) : ts <> t0 -> differs ts (Some t0) = true.
Proof.
  intros H. cbn. apply String.eqb_neq in H. rewrite H. reflexivity.
Qed.

(** C9. A call that crosses a time-unit boundary (the current pane is [p]
    with label [t0], the record's timestamp [ts] differs from [t0] and is
    not in the window) records its address nowhere.  If it returns, the new
    current pane is the fresh pane of [ts], with no request and no address,
    and the window is the old one with [p], untouched, rolled in; if it
    raises, the exception is the scan's and no pane has changed.  It returns
    whenever the scan is not run or returns. *)
Theorem boundary_record_not_counted (d : t) (ip ts t0 : string) (p : Pane.t) :
  current_pane d = Some p ->
  current_timestamp d = Some t0 ->
  ts <> t0 ->
  Window.contains ts (window d) = false ->
  match result (process_data ip ts) d with
  | Return _ =>
      current_pane (state (process_data ip ts) d) = Some (Pane.init ts) /\
      Pane.n_requests (Pane.init ts) = 0 /\
      Pane.ip_list (Pane.init ts) = [] /\
      current_timestamp (state (process_data ip ts) d) = Some ts /\
      Window.panes (window (state (process_data ip ts) d)) =
      Window.panes (Window.shift_window p (window d))
  | Raise e =>
      1 < Window.len (window d) /\
      result scan_for_attack d = Raise e /\
      current_pane (state (process_data ip ts) d) = Some p /\
      Window.panes (window (state (process_data ip ts) d)) =
      Window.panes (window d)
  end /\
  (Window.len (window d) <= 1 \/ result scan_for_attack d = Return tt ->
   result (process_data ip ts) d = Return tt).
Proof.
  intros Hp Ht Hne Hc. pose proof (differs_neq ts t0 Hne) as Hd.
  rewrite <- Ht in Hd.
  destruct (process_data_shape sink ip ts d)
    as [Hp'|p' Hp' Hd'|p' Hp' Hd' Hc'|p' Hp' Hd' Hc' Hl|p' d1 ev1 Hp' Hd' Hc' Hl Hs
        |p' d1 ev1 e Hp' Hd' Hc' Hl Hs]; try congruence.
  - assert (p' = p) by congruence. subst p'. cbn. tauto.
  - assert (p' = p) by congruence. subst p'.
    pose proof (scan_for_attack_inv _ _ _ _ _ Hs) as P. split; [|reflexivity].
    cbn. repeat split.
    apply shift_window_panes; [exact (sp_panes _ _ _ _ P)|exact (sp_length _ _ _ _ P)].
  - assert (p' = p) by congruence. subst p'.
    pose proof (scan_for_attack_inv _ _ _ _ _ Hs) as P. split.
    + repeat split.
      * exact Hl.
      * unfold result. rewrite Hs. reflexivity.
      * rewrite (sp_pane _ _ _ _ P). exact Hp.
      * exact (sp_panes _ _ _ _ P).
    + intros [Hle|Hr]; [lia|]. unfold result in Hr. rewrite Hs in Hr.
      cbn in Hr. discriminate.
Qed.

Lemma update_all_n_requests (ips : list string) (p : Pane.t) :
  Pane.n_requests (Pane.update_all ips p) =
  Pane.n_requests p + Z.of_nat (length ips).
Proof.
  unfold Pane.update_all. revert p.
  induction ips as [|ip ips IH]; intros p; cbn [fold_left length].
  - lia.
  - rewrite IH. cbn [Pane.update Pane.n_requests]. lia.
Qed.

End DetectorClaims.

(** ** AttackDetector: sequences of calls *)

Section DetectorRuns.

Import AttackDetector.

(** The behaviour of the log file during the call under study. *)
Variable sink : log_sink.

Local Abbreviation write_above := (AttackDetector.write_above sink).
Local Abbreviation write_ips_to_logs := (AttackDetector.write_ips_to_logs sink).
Local Abbreviation scan_for_attack := (AttackDetector.scan_for_attack sink).
Local Abbreviation process_data := (AttackDetector.process_data sink).
Local Abbreviation process_started := (AttackDetector.process_started sink).
Local Abbreviation step := (AttackDetector.step sink).

(** The behaviour of the log file during each call of a sequence. *)
Variable sinks : log_schedule.

Local Abbreviation feed := (AttackDetector.feed sinks).
Local Abbreviation steps := (AttackDetector.steps sinks).

Lemma steps_from_snoc (k : nat) (records : list (string * string))
  (r : string * string) (d : t) :
  steps_from sinks k (records ++ [r]) d =
  AttackDetector.step (sinks (k + length records)%nat)
    (steps_from sinks k records d) r.
Proof.
  revert k d.
  induction records as [|r0 records IH]; intros k d;
    cbn [app steps_from length].
  - rewrite Nat.add_0_r. reflexivity.
  - rewrite IH.
    replace (S k + length records)%nat with (k + S (length records))%nat
      by lia.
    reflexivity.
Qed.

Lemma steps_snoc (records : list (string * string)) (r : string * string)
  (d : t) :
  steps (records ++ [r]) d =
  AttackDetector.step (sinks (length records)) (steps records d) r.
Proof. apply (steps_from_snoc 0). Qed.

(** C5. Over any sequence of [process_data] calls: as long as the status
    is ATTACK before each call, [normal_stats] keeps the value it had, also
    through the call that brings the status back to NORMAL; and a call
    either leaves [normal_stats] as it was, or escalates from NORMAL to
    ATTACK and stores the window's statistics in it. *)
Theorem normal_stats_frozen_during_attack (d : t)
  (records : list (string * string)) :
  ((forall k, (k < length records)%nat ->
              status (steps (firstn k records) d) = true) ->
   normal_stats (steps records d) = normal_stats d) /\
  (forall r,
      normal_stats (step d r) = normal_stats d \/
      (status d = false /\ status (step d r) = true /\
       exists s,
         fst (Window.get_request_stats (window d)) = inr s /\
         normal_stats (step d r) = Some s)).
Proof.
  split; [|intros r; apply step_normal_stats].
  induction records as [|r records IH] using rev_ind; intros H.
  - reflexivity.
  - rewrite steps_snoc.
    assert (Hpre : forall k, (k < length records)%nat ->
                             status (steps (firstn k records) d) = true).
    { intros k Hk. specialize (H k). rewrite length_app in H. cbn in H.
      rewrite firstn_app in H.
      replace (k - length records)%nat with 0%nat in H by lia.
      cbn in H. rewrite app_nil_r in H. apply H. lia. }
    assert (Hlast : status (steps records d) = true).
    { specialize (H (length records)). rewrite length_app in H. cbn in H.
      rewrite firstn_app, firstn_all, Nat.sub_diag in H. cbn in H.
      rewrite app_nil_r in H. apply H. lia. }
    rewrite <- (IH Hpre).
    destruct (step_normal_stats (sinks (length records)) (steps records d) r)
      as [E|[E _]];
      [exact E|congruence].
Qed.

Lemma reachable_baselines (d : t) : reachable d -> baselines_set d.
Proof.
  induction 1 as [wl path|sink0 d ip ts Hr IH].
  - intros H. discriminate.
  - destruct (process_data_shape sink0 ip ts d)
      as [Hp|p Hp Hd|p Hp Hd Hc|p Hp Hd Hc Hl|p d1 ev1 Hp Hd Hc Hl Hs
          |p d1 ev1 e Hp Hd Hc Hl Hs];
      try exact IH;
      apply scan_for_attack_inv in Hs;
      exact (sp_baselines _ _ _ _ Hs IH).
Qed.

Lemma reachable_steps (records : list (string * string)) (d : t) :
  reachable d -> reachable (steps records d).
Proof.
  unfold AttackDetector.steps. generalize 0%nat as k. revert d.
  induction records as [|[ip ts] records IH]; intros d k H;
    cbn [steps_from].
  - exact H.
  - apply IH. apply reachable_step, H.
Qed.

Lemma reachable_call_outcome (d : t) (ip ts : string) :
  reachable d ->
  result (process_data ip ts) d = Return tt \/
  result (process_data ip ts) d = Raise ZeroDivisionError \/
  exists e, result (process_data ip ts) d = Raise (SinkError e).
Proof.
  intros Hr. pose proof (reachable_baselines d Hr) as Hb.
  destruct (process_data_shape sink ip ts d)
    as [Hp|p Hp Hd|p Hp Hd Hc|p Hp Hd Hc Hl|p d1 ev1 Hp Hd Hc Hl Hs
        |p d1 ev1 e Hp Hd Hc Hl Hs];
    try (left; reflexivity).
  apply scan_for_attack_inv in Hs.
  apply (sp_safe _ _ _ _ Hs Hb).
  - congruence.
  - intros E. unfold Window.len in Hl. rewrite E in Hl. cbn in Hl. lia.
Qed.

(** C10. In every state reachable from a fresh detector by [process_data]
    calls, whatever the log file did during those calls, a status of
    ATTACK comes with [normal_stats] and [normal_ip_stats] assigned,
    although [__init__] creates no [normal_stats] attribute; so no call
    from such a state raises the [AttributeError] or [TypeError] of reading
    an unset baseline, nor an [IndexError], whether the log file can be
    written or not. *)
Theorem attack_has_baselines (d : t) :
  reachable d ->
  (status d = true ->
   (exists s, normal_stats d = Some s) /\
   (exists s, normal_ip_stats d = Some s)) /\
  (forall ip ts,
      result (process_data ip ts) d <> Raise AttributeError /\
      result (process_data ip ts) d <> Raise TypeError /\
      result (process_data ip ts) d <> Raise IndexError).
Proof.
  intros Hr. pose proof (reachable_baselines d Hr) as Hb. split.
  - intros Hst. destruct (Hb Hst) as [H1 H2].
    destruct (normal_stats d) as [s|]; [|congruence].
    destruct (normal_ip_stats d) as [s'|]; [|congruence].
    split; eexists; reflexivity.
  - intros ip ts.
    destruct (reachable_call_outcome d ip ts Hr) as [E|[E|[e E]]];
      rewrite E; repeat split; discriminate.
Qed.

Lemma feed_from_app (k : nat) (r1 r2 : list (string * string)) (d : t) :
  feed_from sinks k (r1 ++ r2) d =
  bind (feed_from sinks k r1)
    (fun _ => feed_from sinks (k + length r1) r2) d.
Proof.
  revert k d. induction r1 as [|[ip ts] r1 IH]; intros k d.
  - cbn. rewrite Nat.add_0_r. unfold bind, ret.
    destruct (feed_from sinks k r2 d) as [[o d2] ev2]. reflexivity.
  - cbn [app feed_from length]. unfold bind in *.
    destruct (AttackDetector.process_data (sinks k) ip ts d)
      as [[[u|e] d1] ev1]; [|reflexivity].
    rewrite IH.
    replace (S k + length r1)%nat with (k + S (length r1))%nat by lia.
    destruct (feed_from sinks (S k) r1 d1) as [[[u'|e'] d2] ev2];
      [|reflexivity].
    destruct (feed_from sinks (k + S (length r1)) r2 d2) as [[o d3] ev3].
    rewrite app_assoc. reflexivity.
Qed.

Lemma feed_same_unit (k : nat) (ts : string) (ips : list string)
  (w : Window.t) (p : Pane.t) (path : string) (st : bool)
  (a b c : option (float * float)) :
  feed_from sinks k (map (fun ip => (ip, ts)) ips)
    (mk w (Some p) (Some ts) path st a b c) =
  (Return tt, mk w (Some (Pane.update_all ips p)) (Some ts) path st a b c, []).
Proof.
  revert k p. induction ips as [|ip ips IH]; intros k p.
  - reflexivity.
  - cbn [map feed_from]. unfold bind.
    rewrite (process_data_started (sinks k) ip ts p) by reflexivity.
    unfold AttackDetector.process_started. cbn [current_timestamp differs].
    rewrite String.eqb_refl. cbn [negb].
    change (set_current_pane (Pane.update ip p)
              (mk w (Some p) (Some ts) path st a b c))
      with (mk w (Some (Pane.update ip p)) (Some ts) path st a b c).
    rewrite IH. reflexivity.
Qed.

(** C7. From a fresh detector, [N >= 1] records of one timestamp [ts]
    followed by one record of another timestamp [ts'] (the window is empty,
    so [ts'] is not in it): the feed returns, prints exactly one line, rolls
    exactly one pane into the window, and that pane counts [N] requests. *)
Theorem one_unit_then_boundary (window_length : Z) (path : string)
  (ips : list string) (ts ts' ip' : string) :
  ips <> [] ->
  ts' <> ts ->
  feed (map (fun ip => (ip, ts)) ips ++ [(ip', ts')])
    (init window_length path) =
  (Return tt,
   mk (Window.shift_window (Pane.update_all ips (Pane.init ts))
         (Window.init window_length))
      (Some (Pane.init ts')) (Some ts') path false None None None,
   [Printed (Some ts) (Z.of_nat (length ips)) false;
    Shifted (Pane.update_all ips (Pane.init ts))]) /\
  Pane.n_requests (Pane.update_all ips (Pane.init ts)) =
  Z.of_nat (length ips) /\
  Window.panes
    (Window.shift_window (Pane.update_all ips (Pane.init ts))
       (Window.init window_length)) =
  [Pane.update_all ips (Pane.init ts)].
Proof.
  intros Hne Hts.
  assert (Hn : Pane.n_requests (Pane.update_all ips (Pane.init ts)) =
               Z.of_nat (length ips))
    by (rewrite update_all_n_requests; cbn; lia).
  split; [|split; [exact Hn|]].
  - destruct ips as [|ip0 ips]; [congruence|].
    unfold AttackDetector.feed. rewrite feed_from_app.
    cbn [map feed_from]. unfold bind at 1 2.
    rewrite process_data_fresh by reflexivity.
    unfold init, set_current, set_current_pane.
    cbn [window current_pane current_timestamp log_path status
         normal_request_stats normal_ip_stats normal_stats].
    rewrite feed_same_unit. cbn [feed_from]. unfold bind, ret.
    cbn [app].
    rewrite (process_data_started _ ip' ts'
               (Pane.update_all ips (Pane.update ip0 (Pane.init ts))))
      by reflexivity.
    unfold AttackDetector.process_started. cbn [current_timestamp window].
    rewrite (differs_neq ts' ts Hts).
    change (Window.contains ts' (Window.init window_length)) with false.
    change (1 <? Window.len (Window.init window_length)) with false.
    change (Pane.update_all ips (Pane.update ip0 (Pane.init ts)))
      with (Pane.update_all (ip0 :: ips) (Pane.init ts)).
    cbv beta iota zeta.
    cbn [negb app current_pane current_timestamp status window set_window
         set_current log_path normal_request_stats normal_ip_stats
         normal_stats].
    rewrite Hn. reflexivity.
  - unfold Window.shift_window. cbn.
    destruct (0 <? window_length); reflexivity.
Qed.

End DetectorRuns.

(** ** AttackDetector: calls and sequences on examples *)

Section ClaimExamples.

Import AttackDetector.

Local Abbreviation write_above := (AttackDetector.write_above working_sink).
Local Abbreviation write_ips_to_logs := (AttackDetector.write_ips_to_logs working_sink).
Local Abbreviation scan_for_attack := (AttackDetector.scan_for_attack working_sink).
Local Abbreviation process_data := (AttackDetector.process_data working_sink).
Local Abbreviation process_started := (AttackDetector.process_started working_sink).
Local Abbreviation step := (AttackDetector.step working_sink).
Local Abbreviation feed := (AttackDetector.feed (every_call working_sink)).
Local Abbreviation steps := (AttackDetector.steps (every_call working_sink)).

Lemma normal_stats_frozen_witness :
  status attacked = true /\
  status (steps aftermath attacked) = false /\
  normal_stats (steps aftermath attacked) = normal_stats attacked.
Proof.
  split; [vm_compute; reflexivity|]. split; [vm_compute; reflexivity|].
  apply (proj1 (normal_stats_frozen_during_attack working_sink
                 (every_call working_sink) attacked aftermath)).
  intros k Hk.
  do 5 (destruct k as [|k]; [vm_compute; reflexivity|]).
  cbn in Hk. lia.
Defined.

Lemma no_scan_below_two_panes_witness :
  Window.len (window one_pane_detector) = 1 /\
  differs "t3" (current_timestamp one_pane_detector) = true /\
  result (process_data "z" "t3") one_pane_detector = Return tt /\
  status (state (process_data "z" "t3") one_pane_detector) =
  status one_pane_detector /\
  ~ In ScanCalled (events (process_data "z" "t3") one_pane_detector).
Proof.
  split; [vm_compute; reflexivity|]. split; [vm_compute; reflexivity|].
  apply (proj1 (no_scan_below_two_panes working_sink one_pane_detector "z"
                 "t3")).
  vm_compute. discriminate.
Defined.

Lemma boundary_record_not_counted_witness :
  result (process_data "z" "t3") one_pane_detector = Return tt /\
  current_pane (state (process_data "z" "t3") one_pane_detector) =
  Some (Pane.init "t3") /\
  map Pane.n_requests
    (Window.panes (window (state (process_data "z" "t3") one_pane_detector))) =
  [1; 1].
Proof.
  assert (Hp : current_pane one_pane_detector =
               Some (Pane.mk "t2" [("x"%string, 1)] 1))
    by (vm_compute; reflexivity).
  assert (Ht : current_timestamp one_pane_detector = Some "t2"%string)
    by (vm_compute; reflexivity).
  assert (Hne : "t3"%string <> "t2"%string) by discriminate.
  assert (Hc : Window.contains "t3" (window one_pane_detector) = false)
    by (vm_compute; reflexivity).
  pose proof (boundary_record_not_counted working_sink one_pane_detector
                "z" "t3" "t2"
                _ Hp Ht Hne Hc) as [H1 H2].
  assert (Hr : result (process_data "z" "t3") one_pane_detector = Return tt)
    by (apply H2; left; vm_compute; discriminate).
  rewrite Hr in H1. destruct H1 as (Hcur & _ & _ & _ & Hw).
  split; [exact Hr|]. split; [exact Hcur|].
  rewrite Hw. vm_compute. reflexivity.
Defined.

Lemma attack_has_baselines_witness :
  status attacked = true /\
  normal_stats attacked = Some (1%float, 0%float) /\
  (exists s, normal_ip_stats attacked = Some s).
Proof.
  assert (Hst : status attacked = true) by (vm_compute; reflexivity).
  assert (Hr : reachable attacked)
    by (apply reachable_steps, reachable_init).
  destruct (proj1 (attack_has_baselines working_sink attacked Hr) Hst) as [_ H2].
  split; [exact Hst|]. split; [vm_compute; reflexivity|exact H2].
Defined.

Lemma one_unit_then_boundary_witness :
  events (feed [("a", "t1"); ("b", "t1"); ("a", "t1"); ("c", "t2")]%string)
    (init 5 "log") =
  [Printed (Some "t1"%string) 3 false;
   Shifted (Pane.mk "t1" [("a"%string, 2); ("b"%string, 1)] 3)].
Proof.
  assert (Hne : ["a"; "b"; "a"]%string <> []) by discriminate.
  assert (Hts : "t2"%string <> "t1"%string) by discriminate.
  pose proof (proj1 (one_unit_then_boundary (every_call working_sink) 5 "log" ["a"; "b"; "a"]%string
                       "t1" "t2" "c" Hne Hts)) as H.
  unfold events. cbn [map app] in H. rewrite H. reflexivity.
Defined.

(** A log file that cannot be opened: the call that detects the attack
    raises the exception of [open], after the status and the baselines
    have been assigned and before the pane is rolled in. *)
Example alert_write_failure_propagates :
  result (AttackDetector.process_data path_checking_sink "w" "t4")
    (steps (firstn 7 attack_feed) (init 5 EmptyString)) =
  Raise (SinkError OSError) /\
  status (state (AttackDetector.process_data path_checking_sink "w" "t4")
            (steps (firstn 7 attack_feed) (init 5 EmptyString))) = true /\
  normal_stats
    (state (AttackDetector.process_data path_checking_sink "w" "t4")
       (steps (firstn 7 attack_feed) (init 5 EmptyString))) =
  Some (1%float, 0%float) /\
  Window.len
    (window (state (AttackDetector.process_data path_checking_sink "w" "t4")
               (steps (firstn 7 attack_feed) (init 5 EmptyString)))) =
  Window.len (window (steps (firstn 7 attack_feed) (init 5 EmptyString))).
Proof. repeat split; vm_compute; reflexivity. Qed.

End ClaimExamples.

(** * Further properties of the three classes *)

Lemma update_all_snoc (ips : list string) (ip : string) (p : Pane.t) :
  Pane.update_all (ips ++ [ip]) p = Pane.update ip (Pane.update_all ips p).
Proof. unfold Pane.update_all. rewrite fold_left_app. reflexivity. Qed.

Lemma Pane_total_is_sum_of_counts_aux (ts : string) (ips : list string) :
  Pane.n_requests (Pane.update_all ips (Pane.init ts)) =
  Dict.sum_values (Pane.ip_list (Pane.update_all ips (Pane.init ts))).
Proof.
  induction ips as [|ip ips IH] using rev_ind.
  - reflexivity.
  - rewrite update_all_snoc. apply Pane_update_total, IH.
Qed.

(** ** Pane: the dictionary of counters *)

Lemma Dict_get_set_same (k : string) (v : Z) (d : Dict.t) :
  Dict.get k (Dict.set k v d) = Some v.
Proof.
  induction d as [|[k' v'] r IH]; cbn.
  - rewrite String.eqb_refl. reflexivity.
  - destruct (String.eqb k' k) eqn:E; cbn; rewrite E; [reflexivity|exact IH].
Qed.

Lemma Dict_get_set_other (k k' : string) (v : Z) (d : Dict.t) :
  k' <> k -> Dict.get k' (Dict.set k v d) = Dict.get k' d.
Proof.
  intros Hne. induction d as [|[k0 v0] r IH]; cbn.
  - destruct (String.eqb_spec k k'); [congruence|reflexivity].
  - destruct (String.eqb_spec k0 k) as [->|Hk]; cbn.
    + destruct (String.eqb_spec k k'); [congruence|reflexivity].
    + rewrite IH. reflexivity.
Qed.

Lemma Dict_keys_set (k : string) (v : Z) (d : Dict.t) :
  map fst (Dict.set k v d) =
  match Dict.get k d with
  | Some _ => map fst d
  | None => map fst d ++ [k]
  end.
Proof.
  induction d as [|[k' v'] r IH]; cbn.
  - reflexivity.
  - destruct (String.eqb k' k) eqn:E; cbn; [reflexivity|].
    rewrite IH. destruct (Dict.get k r); reflexivity.
Qed.

Lemma Dict_get_none (k : string) (d : Dict.t) :
  Dict.get k d = None <-> ~ In k (map fst d).
Proof.
  induction d as [|[k' v'] r IH]; cbn.
  - tauto.
  - destruct (String.eqb_spec k' k) as [->|Hk].
    + split; [discriminate|]. intros H. exfalso. apply H. left. reflexivity.
    + rewrite IH. tauto.
Qed.

(** X1. [update] and lookup: after [update ip] the counter of [ip] is one
    more than before (1 if the address was new), and the counter of every
    other address is what it was. *)
Theorem Pane_update_lookup (ip ip' : string) (p : Pane.t) :
  Dict.get ip (Pane.ip_list (Pane.update ip p)) =
  Some (match Dict.get ip (Pane.ip_list p) with
        | Some v => v + 1
        | None => 1
        end) /\
  (ip' <> ip ->
   Dict.get ip' (Pane.ip_list (Pane.update ip p)) =
   Dict.get ip' (Pane.ip_list p)).
Proof.
  unfold Pane.update; cbn [Pane.ip_list]. split.
  - destruct (Dict.get ip (Pane.ip_list p)); apply Dict_get_set_same.
  - intros Hne.
    destruct (Dict.get ip (Pane.ip_list p)); apply Dict_get_set_other, Hne.
Qed.

(** X2. The counter of an address in a pane built from a fresh pane by a
    sequence of [update] calls is the number of times the address occurs in
    the sequence; an address that does not occur has no entry. *)
Theorem Pane_counts_occurrences (ts ip : string) (ips : list string) :
  Dict.get ip (Pane.ip_list (Pane.update_all ips (Pane.init ts))) =
  match count_occ string_dec ips ip with
  | O => None
  | S n => Some (Z.of_nat (S n))
  end.
Proof.
  induction ips as [|ip0 ips IH] using rev_ind.
  - reflexivity.
  - rewrite update_all_snoc, count_occ_app. cbn [count_occ].
    destruct (Pane_update_lookup ip0 ip (Pane.update_all ips (Pane.init ts)))
      as [Hsame Hother].
    destruct (string_dec ip0 ip) as [->|Hne].
    + rewrite Hsame, IH.
      destruct (count_occ string_dec ips ip) as [|n]; cbn [Nat.add].
      * reflexivity.
      * f_equal. lia.
    + rewrite Hother by congruence. rewrite IH, Nat.add_0_r. reflexivity.
Qed.

(** X3. The addresses of a pane built by [update] calls are pairwise
    distinct and are exactly the addresses of the calls. *)
Theorem Pane_addresses_distinct (ts : string) (ips : list string) :
  NoDup (map fst (Pane.ip_list (Pane.update_all ips (Pane.init ts)))) /\
  (forall ip,
      In ip (map fst (Pane.ip_list (Pane.update_all ips (Pane.init ts)))) <->
      In ip ips).
Proof.
  induction ips as [|ip0 ips [IHn IHi]] using rev_ind.
  - split; [constructor|]. intros ip. cbn. tauto.
  - rewrite update_all_snoc. set (p := Pane.update_all ips (Pane.init ts)) in *.
    assert (K : map fst (Pane.ip_list (Pane.update ip0 p)) =
                match Dict.get ip0 (Pane.ip_list p) with
                | Some _ => map fst (Pane.ip_list p)
                | None => map fst (Pane.ip_list p) ++ [ip0]
                end).
    { unfold Pane.update; cbn [Pane.ip_list].
      destruct (Dict.get ip0 (Pane.ip_list p)) eqn:E;
        rewrite Dict_keys_set, E; reflexivity. }
    rewrite K. destruct (Dict.get ip0 (Pane.ip_list p)) eqn:E.
    + assert (Hin : In ip0 (map fst (Pane.ip_list p))).
      { destruct (in_dec string_dec ip0 (map fst (Pane.ip_list p)))
          as [H|H]; [exact H|].
        apply Dict_get_none in H. congruence. }
      split; [exact IHn|]. intros ip. rewrite in_app_iff, IHi. cbn.
      split; [tauto|]. intros [H|[<-|[]]]; [exact H|]. apply IHi, Hin.
    + apply Dict_get_none in E. split.
      * apply NoDup_app; [exact IHn|repeat constructor; intros []|].
        intros a Ha [<-|[]]. exact (E Ha).
      * intros ip. rewrite !in_app_iff, IHi. reflexivity.
Qed.

Lemma ip_totals_eq (d : Dict.t) :
  Pane.ip_totals d = (Dict.sum_values d, Z.of_nat (length d)).
Proof.
  unfold Pane.ip_totals, Dict.sum_values, Dict.values.
  assert (G : forall a b,
             fold_left (fun acc kv => (fst acc + snd kv, snd acc + 1)) d (a, b) =
             (a + fold_right Z.add 0 (map snd d), b + Z.of_nat (length d))).
  { induction d as [|[k v] r IH]; intros a b; cbn [fold_left map fold_right length].
    - f_equal; lia.
    - rewrite IH. cbn [fst snd]. f_equal; lia. }
  rewrite G. reflexivity.
Qed.

(** X4. [ip_stats] raises exactly on a pane without addresses, and the only
    exception it raises is [ZeroDivisionError]; a fresh pane is such a
    pane. *)
Theorem Pane_ip_stats_raises_iff_empty (p : Pane.t) :
  (Pane.ip_stats p = inl ZeroDivisionError <-> Pane.ip_list p = []) /\
  (forall e, Pane.ip_stats p = inl e -> e = ZeroDivisionError) /\
  (forall ts, Pane.ip_stats (Pane.init ts) = inl ZeroDivisionError).
Proof.
  split; [|split; [intros e; apply ip_stats_error|intros ts; reflexivity]].
  unfold Pane.ip_stats. rewrite ip_totals_eq.
  destruct (Pane.ip_list p) as [|kv r]; cbn [length].
  - cbn. tauto.
  - destruct (Z.eqb_spec (Z.of_nat (S (length r))) 0) as [H|H]; [lia|].
    split; discriminate.
Qed.

(** X5. On a pane built from a fresh pane by [N >= 1] calls of [update],
    [ip_stats] returns, and the mean it returns is [N] divided by the number
    of distinct addresses. *)
Theorem Pane_ip_stats_mean (ts : string) (ips : list string) :
  ips <> [] ->
  exists sd,
    Pane.ip_stats (Pane.update_all ips (Pane.init ts)) =
    inr (PrimFloat.div
           (float_of_int (Z.of_nat (length ips)))
           (float_of_int
              (Z.of_nat
                 (length (Pane.ip_list (Pane.update_all ips (Pane.init ts)))))),
         sd).
Proof.
  intros Hne. unfold Pane.ip_stats. rewrite ip_totals_eq.
  rewrite <- Pane_total_is_sum_of_counts_aux.
  rewrite update_all_n_requests. cbn [Pane.init Pane.n_requests Z.add].
  destruct (Pane.ip_list (Pane.update_all ips (Pane.init ts))) as [|kv r] eqn:E.
  - exfalso. destruct ips as [|ip0 ips]; [congruence|].
    destruct (Pane_addresses_distinct ts (ip0 :: ips)) as [_ Hi].
    rewrite E in Hi. apply (Hi ip0). left. reflexivity.
  - cbn [length].
    destruct (Z.eqb_spec (Z.of_nat (S (length r))) 0) as [H|H]; [lia|].
    eexists. reflexivity.
Qed.

Lemma Pane_ip_stats_mean_witness :
  exists sd,
    Pane.ip_stats (Pane.update_all ["a"; "b"; "a"]%string (Pane.init "t1")) =
    inr (PrimFloat.div (float_of_int 3) (float_of_int 2), sd).
Proof.
  apply (Pane_ip_stats_mean "t1" ["a"; "b"; "a"]%string). discriminate.
Defined.

(** ** Window: rolling in and statistics *)

Lemma Window_shift_panes (p : Pane.t) (w : Window.t) :
  Window.panes (Window.shift_window p w) =
  (if Window.len w <? Window.window_length w then Window.panes w
   else tl (Window.panes w)) ++ [p].
Proof.
  unfold Window.shift_window.
  destruct (Window.len w <? Window.window_length w); cbn [Window.panes].
  - reflexivity.
  - destruct (Window.panes w); reflexivity.
Qed.

Lemma last_pane_snoc (l : list Pane.t) (p : Pane.t) :
  Window.last_pane (l ++ [p]) = inr p.
Proof.
  induction l as [|q l IH]; [reflexivity|].
  cbn [app Window.last_pane]. destruct (l ++ [p]) eqn:E.
  - destruct l; discriminate.
  - exact IH.
Qed.

Lemma contains_app (ts : string) (w : Window.t) (l1 l2 : list Pane.t) :
  Window.panes w = l1 ++ l2 ->
  Window.contains ts w =
  existsb (fun q => String.eqb (Pane.timestamp q) ts) l1
  || existsb (fun q => String.eqb (Pane.timestamp q) ts) l2.
Proof. intros E. unfold Window.contains. rewrite E. apply existsb_app. Qed.

(** X6. After [shift_window] the pane just rolled in is the last element
    of the window ([panes[-1]]), and the window contains its timestamp,
    whatever the window and its capacity. *)
Theorem Window_shift_newest_last (p : Pane.t) (w : Window.t) :
  Window.last_pane (Window.panes (Window.shift_window p w)) = inr p /\
  Window.contains (Pane.timestamp p) (Window.shift_window p w) = true.
Proof.
  split.
  - rewrite Window_shift_panes. apply last_pane_snoc.
  - rewrite (contains_app _ _ _ _ (Window_shift_panes p w)).
    cbn [existsb]. rewrite String.eqb_refl, orb_true_r. reflexivity.
Qed.

(** X7. [shift_window] changes neither the capacity nor the cached
    statistics; below capacity the length grows by one, at or above capacity
    it stays as it is, except that an empty window ends with one pane. *)
Theorem Window_shift_length (p : Pane.t) (w : Window.t) :
  Window.window_length (Window.shift_window p w) = Window.window_length w /\
  Window.ave_requests (Window.shift_window p w) = Window.ave_requests w /\
  Window.sd_requests (Window.shift_window p w) = Window.sd_requests w /\
  Window.len (Window.shift_window p w) =
  (if Window.len w <? Window.window_length w then Window.len w + 1
   else Z.max 1 (Window.len w)).
Proof.
  repeat split.
  1-3: unfold Window.shift_window; destruct (_ <? _); reflexivity.
  unfold Window.len at 1. rewrite Window_shift_panes, length_app.
  cbn [length]. unfold Window.len.
  destruct (_ <? _); [lia|].
  destruct (Window.panes w); cbn [tl length]; lia.
Qed.

(** X8. A timestamp found in the window after [shift_window] was in the
    window before or is the timestamp of the pane rolled in; and below
    capacity nothing is evicted: a timestamp of the window is still there. *)
Theorem Window_contains_shift (ts : string) (p : Pane.t) (w : Window.t) :
  (Window.contains ts (Window.shift_window p w) = true ->
   Window.contains ts w = true \/ Pane.timestamp p = ts) /\
  (Window.len w < Window.window_length w ->
   Window.contains ts w = true ->
   Window.contains ts (Window.shift_window p w) = true).
Proof.
  rewrite (contains_app _ _ _ _ (Window_shift_panes p w)). cbn [existsb].
  rewrite orb_false_r. split.
  - intros H. apply orb_true_iff in H. destruct H as [H|H].
    + left. unfold Window.contains.
      destruct (_ <? _); [exact H|].
      destruct (Window.panes w) as [|q r]; [exact H|].
      cbn [tl] in H. cbn [existsb]. rewrite H. apply orb_true_r.
    + right. apply String.eqb_eq, H.
  - intros Hlt Hc. apply Z.ltb_lt in Hlt. rewrite Hlt.
    unfold Window.contains in Hc. rewrite Hc. reflexivity.
Qed.

Lemma Window_contains_shift_witness :
  Window.contains "t1"
    (Window.shift_window (Pane.init "t2")
       (Window.shift_window (Pane.init "t1") (Window.init 2))) = true.
Proof.
  apply (proj2 (Window_contains_shift "t1" (Pane.init "t2")
                  (Window.shift_window (Pane.init "t1") (Window.init 2)))).
  - vm_compute. reflexivity.
  - vm_compute. reflexivity.
Defined.

(** X9. [get_request_stats] raises [ZeroDivisionError] on an empty window
    and leaves it as it is; on any other window it returns, stores the two
    values it returns in [ave_requests] and [sd_requests], keeps panes and
    capacity, and a second call returns the same values and changes
    nothing. *)
Theorem Window_request_stats_cached (w : Window.t) :
  (Window.panes w = [] ->
   Window.get_request_stats w = (inl ZeroDivisionError, w)) /\
  (Window.panes w <> [] ->
   exists s w',
     Window.get_request_stats w = (inr s, w') /\
     Window.ave_requests w' = fst s /\
     Window.sd_requests w' = snd s /\
     Window.panes w' = Window.panes w /\
     Window.window_length w' = Window.window_length w /\
     Window.get_request_stats w' = (inr s, w')).
Proof.
  unfold Window.get_request_stats, Window.len. split.
  - intros E. rewrite E. reflexivity.
  - intros Hne. destruct (Window.panes w) as [|q r] eqn:E; [congruence|].
    cbn [length Window.panes].
    destruct (Z.eqb_spec (Z.of_nat (S (length r))) 0) as [H|_]; [lia|].
    eexists. eexists. repeat split.
    unfold Window.stats_of, Window.len. cbn [Window.panes Window.window_length].
    rewrite E. reflexivity.
Qed.

Lemma Window_request_stats_cached_witness :
  exists s w',
    Window.get_request_stats window_1133 = (inr s, w') /\
    Window.ave_requests w' = fst s /\
    Window.sd_requests w' = snd s /\
    Window.panes w' = Window.panes window_1133 /\
    Window.window_length w' = Window.window_length window_1133 /\
    Window.get_request_stats w' = (inr s, w').
Proof.
  apply (proj2 (Window_request_stats_cached window_1133)).
  vm_compute. discriminate.
Defined.

(** ** AttackDetector: the scan in closed form *)

Section ScanBehaviour.

Import AttackDetector.

(** The behaviour of the log file during the call under study. *)
Variable sink : log_sink.

Local Abbreviation write_above := (AttackDetector.write_above sink).
Local Abbreviation write_ips_to_logs := (AttackDetector.write_ips_to_logs sink).
Local Abbreviation scan_for_attack := (AttackDetector.scan_for_attack sink).
Local Abbreviation process_data := (AttackDetector.process_data sink).
Local Abbreviation process_started := (AttackDetector.process_started sink).
Local Abbreviation step := (AttackDetector.step sink).

Ltac run_norm :=
  repeat
    (progress
       (cbv beta iota zeta;
        cbn [fst snd app window current_pane current_timestamp log_path status
             normal_request_stats normal_ip_stats normal_stats set_window
             set_current set_current_pane set_status set_normal_ip_stats
             set_normal_stats Window.panes Window.window_length andb];
        rewrite ?app_nil_r;
        repeat match goal with
          | H : ?x = _ |- context [?x] => rewrite H
          end)).

Ltac run_scan :=
  cbv beta iota zeta delta
    [scan_for_attack check_ip_stats write_ips_to_logs
     window_get_request_stats bind gets modify emit ret raise
     read_current_pane read_normal_stats].

Lemma any_above_some (items : Dict.t) (d : t) (s : float * float) :
  normal_ip_stats d = Some s ->
  any_above items d = (Return (existsb (above s) items), d, []).
Proof.
  intros H. rewrite any_above_eq, H. destruct items; reflexivity.
Qed.

Lemma write_above_some (items : Dict.t) (d : t) (s : float * float) :
  normal_ip_stats d = Some s ->
  write_above items d =
  (fst (log_lines sink (log_path d) (map fst (filter (above s) items))), d,
   snd (log_lines sink (log_path d) (map fst (filter (above s) items)))).
Proof.
  intros H. rewrite write_above_eq, H. destruct items; reflexivity.
Qed.

Lemma get_request_stats_nonempty (w : Window.t) :
  Window.panes w <> [] ->
  Window.get_request_stats w =
  (inr (Window.stats_of w),
   Window.mk (Window.window_length w) (Window.panes w)
     (fst (Window.stats_of w)) (snd (Window.stats_of w))).
Proof.
  intros Hne. unfold Window.get_request_stats, Window.len.
  destruct (Window.panes w) as [|q r] eqn:E; [congruence|].
  cbn [length].
  destruct (Z.eqb_spec (Z.of_nat (S (length r))) 0) as [H|_]; [lia|].
  reflexivity.
Qed.

Lemma Window_request_stats_empty (w : Window.t) :
  (Window.panes w = [] ->
   Window.get_request_stats w = (inl ZeroDivisionError, w)) /\
  (Window.panes w = [] -> Window.len w = 0).
Proof.
  unfold Window.get_request_stats, Window.len.
  split; intros E; rewrite E; reflexivity.
Qed.

Lemma last_pane_nonempty (l : list Pane.t) (q : Pane.t) :
  Window.last_pane l = inr q -> l <> [].
Proof. destruct l; [discriminate|]. intros _. discriminate. Qed.

(** X10. The scan under attack, with both baselines set: if the current
    pane has more requests than the frozen threshold and one of its
    addresses is above the frozen per-address threshold, the state is left
    as it is and the addresses above that threshold are appended to the
    log, in the order of the dictionary: the scan returns when every
    append succeeds, and raises the exception of the first one that fails,
    the addresses before it logged.  Otherwise the status goes back to
    NORMAL, nothing is logged and nothing else changes. *)
Theorem scan_under_attack (d : t) (p : Pane.t) (ns nis : float * float) :
  status d = true ->
  current_pane d = Some p ->
  normal_stats d = Some ns ->
  normal_ip_stats d = Some nis ->
  scan_for_attack d =
  if int_gt_float (Pane.n_requests p) (threshold ns)
     && existsb (above nis) (Pane.ip_list p)
  then
    let run :=
      log_lines sink (log_path d)
        (map fst (filter (above nis) (Pane.ip_list p))) in
    (fst run, d, ScanCalled :: snd run)
  else (Return tt, set_status false d, [ScanCalled]).
Proof.
  intros Hst Hp Hns Hnis. run_scan. run_norm.
  destruct (int_gt_float (Pane.n_requests p) (threshold ns)); run_norm;
    [|reflexivity].
  rewrite (any_above_some _ _ _ Hnis). run_norm.
  destruct (existsb (above nis) (Pane.ip_list p)); run_norm; [|reflexivity].
  rewrite (write_above_some _ _ _ Hnis). reflexivity.
Qed.

(** X11. The scan in normal mode, on a window whose last pane [q] has
    addresses.  The window statistics are computed and cached.  If the
    current pane has more requests than their threshold, [normal_ip_stats]
    becomes the statistics of [q]; if moreover an address of the current
    pane is above the threshold of [q], the status becomes ATTACK and
    [normal_stats] becomes the window statistics, and then the addresses
    above the threshold of [q] are appended to the log: the scan returns
    when every append succeeds, and raises the exception of the first one
    that fails, the status and the baselines staying as just assigned.
    Nothing else changes. *)
Theorem scan_in_normal_mode (d : t) (p q : Pane.t) (nis : float * float) :
  status d = false ->
  current_pane d = Some p ->
  Window.last_pane (Window.panes (window d)) = inr q ->
  Pane.ip_stats q = inr nis ->
  scan_for_attack d =
  let s := Window.stats_of (window d) in
  let d1 :=
    set_window
      (Window.mk (Window.window_length (window d)) (Window.panes (window d))
         (fst s) (snd s)) d in
  if int_gt_float (Pane.n_requests p) (threshold s) then
    if existsb (above nis) (Pane.ip_list p) then
      let run :=
        log_lines sink (log_path d)
          (map fst (filter (above nis) (Pane.ip_list p))) in
      (fst run,
       set_normal_stats s (set_status true (set_normal_ip_stats nis d1)),
       ScanCalled :: StatsCalled (Window.len (window d)) :: snd run)
    else
      (Return tt, set_normal_ip_stats nis d1,
       [ScanCalled; StatsCalled (Window.len (window d))])
  else (Return tt, d1, [ScanCalled; StatsCalled (Window.len (window d))]).
Proof.
  intros Hst Hp Hq Hs. run_scan. run_norm.
  rewrite (get_request_stats_nonempty _ (last_pane_nonempty _ _ Hq)).
  set (s := Window.stats_of (window d)). run_norm.
  destruct (int_gt_float (Pane.n_requests p) (threshold s)); run_norm;
    [|reflexivity].
  rewrite any_above_some with (s := nis) by reflexivity. run_norm.
  destruct (existsb (above nis) (Pane.ip_list p)); run_norm; [|reflexivity].
  rewrite write_above_some with (s := nis) by reflexivity. reflexivity.
Qed.

(** X12. The scan in normal mode, on a window whose last pane has no
    address, when the current pane has more requests than the threshold of
    the window statistics: [ZeroDivisionError] is raised by [ip_stats];
    the window statistics have been cached by then, and the status and the
    baselines are as they were. *)
Theorem scan_raises_on_silent_pane (d : t) (p q : Pane.t) :
  status d = false ->
  current_pane d = Some p ->
  Window.last_pane (Window.panes (window d)) = inr q ->
  Pane.ip_list q = [] ->
  int_gt_float (Pane.n_requests p) (threshold (Window.stats_of (window d))) =
  true ->
  scan_for_attack d =
  (Raise ZeroDivisionError,
   set_window
     (Window.mk (Window.window_length (window d)) (Window.panes (window d))
        (fst (Window.stats_of (window d))) (snd (Window.stats_of (window d))))
     d,
   [ScanCalled; StatsCalled (Window.len (window d))]).
Proof.
  intros Hst Hp Hq Hempty Hgt. run_scan. run_norm.
  rewrite (get_request_stats_nonempty _ (last_pane_nonempty _ _ Hq)).
  run_norm.
  assert (Hs : Pane.ip_stats q = inl ZeroDivisionError).
  { unfold Pane.ip_stats. rewrite Hempty. reflexivity. }
  rewrite Hs. reflexivity.
Qed.

Lemma logged_in (path : string) (s : float * float) (items : Dict.t)
  (e : event) :
  In e (snd (log_lines sink path (map fst (filter (above s) items)))) ->
  exists ip, e = Logged path ip /\ In ip (map fst items).
Proof.
  intros H. apply log_lines_events in H. destruct H as (ip & -> & Hin).
  exists ip. split; [reflexivity|].
  apply in_map_iff in Hin. destruct Hin as ([ip' v] & <- & Hf).
  apply filter_In in Hf. destruct Hf as [Hin _].
  apply in_map_iff. exists (ip', v). split; [reflexivity|exact Hin].
Qed.

Ltac effects_leaf :=
  constructor;
  [ reflexivity
  | let e := fresh "e" in
    let Hin := fresh "Hin" in
    intros e Hin;
    repeat (destruct Hin as [Hin|Hin]; [subst e; tauto|]);
    first
      [ contradiction
      | apply logged_in in Hin; destruct Hin as (? & -> & _);
        right; right; eexists; reflexivity ]
  | let path := fresh "path" in
    let ip := fresh "ip" in
    let Hin := fresh "Hin" in
    intros path ip Hin;
    repeat (destruct Hin as [Hin|Hin]; [discriminate|]);
    first
      [ contradiction
      | apply logged_in in Hin; destruct Hin as (? & Heq & Hk);
        injection Heq as _ <-;
        split;
        [ first [reflexivity|assumption]
        | eexists; split; [first [reflexivity|eassumption]|exact Hk] ] ] ].

Lemma scan_for_attack_effects (d : t) :
  scan_effects d (state scan_for_attack d) (events scan_for_attack d).
Proof.
  unfold state, events. run_scan.
  destruct (status d) eqn:Hst; run_norm.
  - destruct (current_pane d) as [p|] eqn:Hp; run_norm; [|effects_leaf].
    destruct (normal_stats d) as [ns|] eqn:Hns; run_norm; [|effects_leaf].
    destruct (int_gt_float (Pane.n_requests p) (threshold ns)); run_norm;
      [|effects_leaf].
    destruct (normal_ip_stats d) as [nis|] eqn:Hnis.
    + rewrite (any_above_some _ _ _ Hnis). run_norm.
      destruct (existsb (above nis) (Pane.ip_list p)); run_norm;
        [|effects_leaf].
      rewrite (write_above_some _ _ _ Hnis). run_norm. effects_leaf.
    + rewrite any_above_eq, Hnis.
      destruct (Pane.ip_list p); run_norm; effects_leaf.
  - destruct (Window.panes (window d)) as [|q0 r] eqn:Hpanes.
    + rewrite (proj1 (Window_request_stats_empty (window d)) Hpanes).
      run_norm. effects_leaf.
    + rewrite get_request_stats_nonempty by (rewrite Hpanes; discriminate).
      set (s := Window.stats_of (window d)). run_norm.
      destruct (current_pane d) as [p|] eqn:Hp; run_norm; [|effects_leaf].
      destruct (int_gt_float (Pane.n_requests p) (threshold s)); run_norm;
        [|effects_leaf].
      destruct (Window.last_pane (q0 :: r)) as [e|q] eqn:Hlast; run_norm;
        [effects_leaf|].
      destruct (Pane.ip_stats q) as [e|nis] eqn:Hstats; run_norm;
        [effects_leaf|].
      rewrite any_above_some with (s := nis) by reflexivity. run_norm.
      destruct (existsb (above nis) (Pane.ip_list p)); run_norm;
        [|effects_leaf].
      rewrite write_above_some with (s := nis) by reflexivity. run_norm.
      effects_leaf.
Qed.

Lemma scan_for_attack_effects_inv (d d1 : t) (o : outcome unit)
  (ev : list event) :
  scan_for_attack d = (o, d1, ev) -> scan_effects d d1 ev.
Proof.
  intros H. pose proof (scan_for_attack_effects d) as P.
  unfold state, events in P. rewrite H in P. exact P.
Qed.

End ScanBehaviour.

Section ScanExamples.

Import AttackDetector.

Local Abbreviation write_above := (AttackDetector.write_above working_sink).
Local Abbreviation write_ips_to_logs := (AttackDetector.write_ips_to_logs working_sink).
Local Abbreviation scan_for_attack := (AttackDetector.scan_for_attack working_sink).
Local Abbreviation process_data := (AttackDetector.process_data working_sink).
Local Abbreviation process_started := (AttackDetector.process_started working_sink).
Local Abbreviation step := (AttackDetector.step working_sink).
Local Abbreviation feed := (AttackDetector.feed (every_call working_sink)).
Local Abbreviation steps := (AttackDetector.steps (every_call working_sink)).

Lemma scan_under_attack_witness :
  result scan_for_attack (steps (firstn 3 aftermath) attacked) = Return tt /\
  state scan_for_attack (steps (firstn 3 aftermath) attacked) =
  steps (firstn 3 aftermath) attacked /\
  events scan_for_attack (steps (firstn 3 aftermath) attacked) =
  [ScanCalled; Logged "log" "a"].
Proof.
  assert (Hst : status (steps (firstn 3 aftermath) attacked) = true)
    by (vm_compute; reflexivity).
  assert (Hp : current_pane (steps (firstn 3 aftermath) attacked) =
               Some (Pane.mk "t4" [("a"%string, 3)] 3))
    by (vm_compute; reflexivity).
  assert (Hns : normal_stats (steps (firstn 3 aftermath) attacked) =
                Some (1%float, 0%float)) by (vm_compute; reflexivity).
  assert (Hnis : normal_ip_stats (steps (firstn 3 aftermath) attacked) =
                 Some (1%float, 0%float)) by (vm_compute; reflexivity).
  pose proof (scan_under_attack working_sink _ _ _ _ Hst Hp Hns Hnis) as H.
  unfold result, state, events. rewrite H.
  repeat split; vm_compute; reflexivity.
Defined.

Lemma scan_in_normal_mode_witness :
  result (AttackDetector.scan_for_attack path_checking_sink)
    (steps (firstn 7 attack_feed) (init 5 EmptyString)) =
  Raise (SinkError OSError) /\
  status (state (AttackDetector.scan_for_attack path_checking_sink)
            (steps (firstn 7 attack_feed) (init 5 EmptyString))) = true /\
  normal_stats (state (AttackDetector.scan_for_attack path_checking_sink)
                  (steps (firstn 7 attack_feed) (init 5 EmptyString))) =
  Some (1%float, 0%float) /\
  events (AttackDetector.scan_for_attack path_checking_sink)
    (steps (firstn 7 attack_feed) (init 5 EmptyString)) =
  [ScanCalled; StatsCalled 2].
Proof.
  set (d := steps (firstn 7 attack_feed) (init 5 EmptyString)).
  assert (Hst : status d = false) by (vm_compute; reflexivity).
  assert (Hp : current_pane d = Some (Pane.mk "t3" [("a"%string, 3)] 3))
    by (vm_compute; reflexivity).
  assert (Hq : Window.last_pane (Window.panes (window d)) =
               inr (Pane.mk "t2" [("x"%string, 1)] 1))
    by (vm_compute; reflexivity).
  assert (Hs : Pane.ip_stats (Pane.mk "t2" [("x"%string, 1)] 1) =
               inr (1%float, 0%float)) by (vm_compute; reflexivity).
  pose proof (scan_in_normal_mode path_checking_sink d _ _ _ Hst Hp Hq Hs)
    as H.
  unfold result, state, events. rewrite H.
  repeat split; vm_compute; reflexivity.
Defined.

Lemma scan_raises_on_silent_pane_witness :
  reachable silent_then_busy /\
  result (process_data "f" "t5") silent_then_busy = Raise ZeroDivisionError.
Proof.
  split; [apply reachable_steps, reachable_init|].
  assert (Hst : status silent_then_busy = false) by (vm_compute; reflexivity).
  assert (Hp : current_pane silent_then_busy =
               Some (Pane.mk "t4" [("e"%string, 1)] 1))
    by (vm_compute; reflexivity).
  assert (Hq : Window.last_pane (Window.panes (window silent_then_busy)) =
               inr (Pane.init "t3")) by (vm_compute; reflexivity).
  assert (Hgt : int_gt_float (Pane.n_requests (Pane.mk "t4" [("e"%string, 1)] 1))
                  (threshold (Window.stats_of (window silent_then_busy))) = true)
    by (vm_compute; reflexivity).
  pose proof (scan_raises_on_silent_pane working_sink _ _ _ Hst Hp Hq eq_refl
                Hgt) as H.
  unfold result. rewrite (process_data_started _ _ _ _ _ Hp).
  unfold AttackDetector.process_started.
  change (differs "t5" (current_timestamp silent_then_busy)) with true.
  change (Window.contains "t5" (window silent_then_busy)) with false.
  change (1 <? Window.len (window silent_then_busy)) with true.
  cbn [negb]. rewrite H. reflexivity.
Defined.

End ScanExamples.

(** ** AttackDetector: what every call keeps *)

Section DetectorInvariants.

Import AttackDetector.

(** The behaviour of the log file during the call under study. *)
Variable sink : log_sink.

Local Abbreviation write_above := (AttackDetector.write_above sink).
Local Abbreviation write_ips_to_logs := (AttackDetector.write_ips_to_logs sink).
Local Abbreviation scan_for_attack := (AttackDetector.scan_for_attack sink).
Local Abbreviation process_data := (AttackDetector.process_data sink).
Local Abbreviation process_started := (AttackDetector.process_started sink).
Local Abbreviation step := (AttackDetector.step sink).

Lemma contains_false (ts : string) (w : Window.t) :
  Window.contains ts w = false <->
  ~ In ts (map Pane.timestamp (Window.panes w)).
Proof.
  unfold Window.contains.
  induction (Window.panes w) as [|q r IH]; cbn.
  - tauto.
  - destruct (String.eqb_spec (Pane.timestamp q) ts) as [E|E]; cbn.
    + split; [discriminate|]. intros H. exfalso. apply H. left. exact E.
    + rewrite IH. tauto.
Qed.

Lemma shift_kept_incl (p : Pane.t) (w : Window.t) :
  exists l,
    Window.panes (Window.shift_window p w) = l ++ [p] /\
    incl l (Window.panes w) /\
    (NoDup (map Pane.timestamp (Window.panes w)) ->
     NoDup (map Pane.timestamp l)) /\
    (length l <= length (Window.panes w))%nat.
Proof.
  rewrite Window_shift_panes.
  destruct (_ <? _).
  - exists (Window.panes w). repeat split; auto using incl_refl.
  - exists (tl (Window.panes w)). destruct (Window.panes w) as [|q r];
      cbn [tl]; repeat split; auto using incl_refl, incl_tl.
    + intros H. cbn in H. inversion H. assumption.
    + cbn. lia.
Qed.

Lemma shift_len_bound (p : Pane.t) (w : Window.t) :
  Window.len w <= Z.max 1 (Window.window_length w) ->
  Window.len (Window.shift_window p w) <= Z.max 1 (Window.window_length w).
Proof.
  unfold Window.len at 2. rewrite Window_shift_panes, length_app.
  cbn [length].
  destruct (Z.ltb_spec (Window.len w) (Window.window_length w));
    unfold Window.len in *; [lia|].
  destruct (Window.panes w); cbn [tl length] in *; lia.
Qed.

Lemma shift_window_length (p : Pane.t) (w : Window.t) :
  Window.window_length (Window.shift_window p w) = Window.window_length w.
Proof. unfold Window.shift_window. destruct (_ <? _); reflexivity. Qed.

Lemma well_formed_init (window_length : Z) (path : string) :
  well_formed window_length path (init window_length path).
Proof.
  constructor; cbn; try reflexivity; try constructor. lia.
Qed.

Lemma well_formed_ext (wl : Z) (path : string) (d d1 : t) :
  well_formed wl path d ->
  log_path d1 = log_path d ->
  Window.window_length (window d1) = Window.window_length (window d) ->
  Window.panes (window d1) = Window.panes (window d) ->
  current_pane d1 = current_pane d ->
  current_timestamp d1 = current_timestamp d ->
  normal_request_stats d1 = normal_request_stats d ->
  well_formed wl path d1.
Proof.
  intros [] H1 H2 H3 H4 H5 H6.
  constructor; unfold Window.len, Window.contains in *;
    rewrite ?H1, ?H2, ?H3, ?H4, ?H5, ?H6; assumption.
Qed.

Lemma well_formed_roll (wl : Z) (path ts : string) (p : Pane.t) (d : t) :
  well_formed wl path d ->
  current_pane d = Some p ->
  differs ts (current_timestamp d) = true ->
  Window.contains ts (window d) = false ->
  well_formed wl path
    (set_current ts (Pane.init ts)
       (set_window (Window.shift_window p (window d)) d)).
Proof.
  intros [Hpath Hlen Hrs Hb Hcur Hps Hnd] Hp Hd Hc.
  rewrite Hp in Hcur. destruct (current_timestamp d) as [t0|]; [|contradiction].
  destruct Hcur as (Ht0 & Hc0 & Hok).
  assert (Hne : ts <> t0).
  { cbn in Hd. intros ->. rewrite String.eqb_refl in Hd. discriminate. }
  destruct (shift_kept_incl p (window d)) as (l & El & Hincl & Hndl & _).
  constructor;
    cbn [log_path window current_pane current_timestamp normal_request_stats
         set_current set_window].
  - exact Hpath.
  - rewrite shift_window_length. exact Hlen.
  - exact Hrs.
  - rewrite <- Hlen in Hb |- *. apply shift_len_bound, Hb.
  - split; [reflexivity|]. split; [|reflexivity].
    apply contains_false. rewrite El, map_app, in_app_iff. cbn.
    apply contains_false in Hc. intros [H|[H|[]]].
    + apply Hc. apply in_map_iff in H. destruct H as (q & Hq & Hin).
      apply in_map_iff. exists q. split; [exact Hq|apply Hincl, Hin].
    + congruence.
  - rewrite El. apply Forall_app. split.
    + rewrite Forall_forall in *. intros q Hq. apply Hps, Hincl, Hq.
    + repeat constructor. exact Hok.
  - rewrite El, map_app. apply NoDup_app.
    + apply Hndl, Hnd.
    + repeat constructor. intros [].
    + intros a Ha [<-|[]]. apply contains_false in Hc0. apply Hc0.
      apply in_map_iff in Ha. destruct Ha as (q & Hq & Hin).
      apply in_map_iff. exists q. split; [congruence|apply Hincl, Hin].
Qed.

Lemma well_formed_scan (wl : Z) (path : string) (d d1 : t)
  (o : outcome unit) (ev : list event) :
  well_formed wl path d ->
  scan_for_attack d = (o, d1, ev) ->
  well_formed wl path d1.
Proof.
  intros Hwf Hs.
  pose proof (scan_for_attack_inv _ _ _ _ _ Hs) as P.
  pose proof (scan_for_attack_effects_inv _ _ _ _ _ Hs) as Q.
  apply (well_formed_ext wl path d d1 Hwf).
  - exact (sp_path _ _ _ _ P).
  - exact (sp_length _ _ _ _ P).
  - exact (sp_panes _ _ _ _ P).
  - exact (sp_pane _ _ _ _ P).
  - exact (sp_ts _ _ _ _ P).
  - exact (se_request_stats _ _ _ Q).
Qed.

Lemma well_formed_step (wl : Z) (path : string) (d : t)
  (r : string * string) :
  well_formed wl path d -> well_formed wl path (step d r).
Proof.
  intros Hwf. unfold step. destruct r as [ip ts]. cbn [fst snd].
  destruct (process_data_shape sink ip ts d)
    as [Hp|p Hp Hd|p Hp Hd Hc|p Hp Hd Hc Hl|p d1 ev1 Hp Hd Hc Hl Hs
        |p d1 ev1 e Hp Hd Hc Hl Hs].
  - destruct Hwf as [Hpath Hlen Hrs Hb Hcur Hps Hnd].
    rewrite Hp in Hcur.
    destruct (current_timestamp d); [contradiction|].
    constructor; cbn; try assumption.
    split; [reflexivity|]. split.
    + unfold Window.contains. rewrite Hcur. reflexivity.
    + apply (Pane_update_total ip (Pane.init ts)). reflexivity.
  - destruct Hwf as [Hpath Hlen Hrs Hb Hcur Hps Hnd].
    rewrite Hp in Hcur.
    destruct (current_timestamp d) as [t0|] eqn:Et; [|contradiction].
    destruct Hcur as (Ht0 & Hc0 & Hok).
    constructor; cbn; try assumption. rewrite Et.
    repeat split; try assumption. apply Pane_update_total, Hok.
  - exact Hwf.
  - apply well_formed_roll; assumption.
  - pose proof (well_formed_scan _ _ _ _ _ _ Hwf Hs) as Hwf1.
    pose proof (scan_for_attack_inv _ _ _ _ _ Hs) as P.
    apply well_formed_roll; try assumption.
    + rewrite (sp_pane _ _ _ _ P). exact Hp.
    + rewrite (sp_ts _ _ _ _ P). exact Hd.
    + unfold Window.contains in *. rewrite (sp_panes _ _ _ _ P). exact Hc.
  - exact (well_formed_scan _ _ _ _ _ _ Hwf Hs).
Qed.

Lemma step_has_current (d : t) (r : string * string) :
  current_pane (step d r) <> None.
Proof.
  unfold step.
  destruct (process_data_shape sink (fst r) (snd r) d)
    as [Hp|p Hp Hd|p Hp Hd Hc|p Hp Hd Hc Hl|p d1 ev1 Hp Hd Hc Hl Hs
        |p d1 ev1 e Hp Hd Hc Hl Hs]; cbn; try congruence.
  apply scan_for_attack_inv in Hs. rewrite (sp_pane _ _ _ _ Hs). congruence.
Qed.

(** X18. A [process_data] call writes an address to the log only if it
    ends with the status ATTACK; the line goes to the detector's
    [log_path], and the address is one of the pane that was current when
    the call began. *)
Theorem alerts_only_under_attack (d : t) (ip0 ts path ip : string) :
  In (Logged path ip) (events (process_data ip0 ts) d) ->
  status (state (process_data ip0 ts) d) = true /\
  path = log_path d /\
  exists p, current_pane d = Some p /\ In ip (map fst (Pane.ip_list p)).
Proof.
  destruct (process_data_shape sink ip0 ts d)
    as [Hp|p Hp Hd|p Hp Hd Hc|p Hp Hd Hc Hl|p d1 ev1 Hp Hd Hc Hl Hs
        |p d1 ev1 e Hp Hd Hc Hl Hs]; intros Hin.
  1-3: contradiction.
  - cbn in Hin. intuition discriminate.
  - apply scan_for_attack_effects_inv in Hs.
    apply in_app_or in Hin. destruct Hin as [Hin|Hin].
    + destruct (se_logged _ _ _ Hs _ _ Hin) as [Hst Hk].
      destruct (se_events _ _ _ Hs _ Hin) as [H|[H|[x H]]]; try discriminate.
      injection H as -> _. repeat split; assumption.
    + cbn in Hin. intuition discriminate.
  - apply scan_for_attack_effects_inv in Hs.
    destruct (se_logged _ _ _ Hs _ _ Hin) as [Hst Hk].
    destruct (se_events _ _ _ Hs _ Hin) as [H|[H|[x H]]]; try discriminate.
    injection H as -> _. repeat split; assumption.
Qed.

Lemma scan_events_no_report (d d1 : t) (o : outcome unit) (ev : list event) :
  scan_for_attack d = (o, d1, ev) -> filter is_report ev = [].
Proof.
  intros Hs. apply scan_for_attack_effects_inv in Hs.
  pose proof (se_events _ _ _ Hs) as H. clear Hs.
  induction ev as [|e ev IH]; [reflexivity|].
  cbn [filter].
  destruct (H e (or_introl eq_refl)) as [->|[->|[x ->]]]; cbn [is_report];
    apply IH; intros e' He'; apply H; right; exact He'.
Qed.

(** X19. A [process_data] call reports at most one retired time unit: the
    events [Printed] and [Shifted] it emits are either none, or -- when it
    returns from a boundary crossing -- one [Printed] line followed by one
    [Shifted], both for the pane that was current when the call began, the
    line carrying the label that was current, the total of that pane and
    the status the call ends with. *)
Theorem one_report_per_call (d : t) (ip ts : string) :
  filter is_report (events (process_data ip ts) d) = [] \/
  exists p,
    current_pane d = Some p /\
    result (process_data ip ts) d = Return tt /\
    filter is_report (events (process_data ip ts) d) =
    [Printed (current_timestamp d) (Pane.n_requests p)
       (status (state (process_data ip ts) d));
     Shifted p].
Proof.
  destruct (process_data_shape sink ip ts d)
    as [Hp|p Hp Hd|p Hp Hd Hc|p Hp Hd Hc Hl|p d1 ev1 Hp Hd Hc Hl Hs
        |p d1 ev1 e Hp Hd Hc Hl Hs].
  1-3: left; reflexivity.
  - right. exists p. repeat split. exact Hp.
  - right. exists p. split; [exact Hp|]. split; [reflexivity|].
    rewrite filter_app, (scan_events_no_report _ _ _ _ Hs). reflexivity.
  - left. exact (scan_events_no_report _ _ _ _ Hs).
Qed.

End DetectorInvariants.

(** ** AttackDetector: what every run keeps *)

Section RunInvariants.

Import AttackDetector.

(** The behaviour of the log file during each call of a sequence. *)
Variable sinks : log_schedule.

Local Abbreviation steps := (AttackDetector.steps sinks).

Lemma well_formed_steps (wl : Z) (path : string)
  (records : list (string * string)) :
  well_formed wl path (steps records (init wl path)).
Proof.
  induction records as [|r records IH] using rev_ind.
  - apply well_formed_init.
  - rewrite steps_snoc. apply well_formed_step, IH.
Qed.

(** X13. Whatever records a detector is given, also across calls that
    raised: its log path and the capacity of its window are those it was
    built with, and [normal_request_stats], set to [None] by [__init__], is
    never assigned. *)
Theorem detector_configuration_constant (window_length : Z) (path : string)
  (records : list (string * string)) :
  log_path (steps records (init window_length path)) = path /\
  Window.window_length (window (steps records (init window_length path))) =
  window_length /\
  normal_request_stats (steps records (init window_length path)) = None.
Proof.
  destruct (well_formed_steps window_length path records).
  repeat split; assumption.
Qed.

(** X14. The window of a detector never holds more than
    [max(1, window_length)] panes. *)
Theorem detector_window_bounded (window_length : Z) (path : string)
  (records : list (string * string)) :
  Window.len (window (steps records (init window_length path))) <=
  Z.max 1 window_length.
Proof. exact (wf_bound _ _ _ (well_formed_steps window_length path records)). Qed.

(** X15. Once a detector has been given a record, it has a current pane;
    [current_timestamp] is the timestamp of that pane, and no pane of the
    window has that timestamp. *)
Theorem detector_current_labelled (window_length : Z) (path : string)
  (records : list (string * string)) :
  records <> [] ->
  exists p,
    current_pane (steps records (init window_length path)) = Some p /\
    current_timestamp (steps records (init window_length path)) =
    Some (Pane.timestamp p) /\
    Window.contains (Pane.timestamp p)
      (window (steps records (init window_length path))) = false.
Proof.
  intros Hne.
  pose proof (wf_current _ _ _ (well_formed_steps window_length path records))
    as H.
  assert (Hc : current_pane (steps records (init window_length path)) <> None).
  { destruct records as [|r records] using rev_ind; [congruence|].
    rewrite steps_snoc. apply step_has_current. }
  destruct (current_pane (steps records (init window_length path))) as [p|];
    [|congruence].
  destruct (current_timestamp (steps records (init window_length path)))
    as [ts|]; [|contradiction].
  destruct H as (<- & Hcont & _). exists p. repeat split. exact Hcont.
Qed.

(** X16. In every pane a detector holds, in the window or as current
    pane, [n_requests] is the sum of the counters of [ip_list]. *)
Theorem detector_panes_consistent (window_length : Z) (path : string)
  (records : list (string * string)) :
  Forall pane_ok
    (Window.panes (window (steps records (init window_length path)))) /\
  (forall p,
      current_pane (steps records (init window_length path)) = Some p ->
      pane_ok p).
Proof.
  destruct (well_formed_steps window_length path records)
    as [_ _ _ _ Hcur Hps _].
  split; [exact Hps|]. intros p Hp. rewrite Hp in Hcur.
  destruct (current_timestamp (steps records (init window_length path)));
    [|contradiction].
  apply Hcur.
Qed.

(** X17. The panes of a detector's window have pairwise distinct
    timestamps. *)
Theorem detector_timestamps_distinct (window_length : Z) (path : string)
  (records : list (string * string)) :
  NoDup
    (map Pane.timestamp
       (Window.panes (window (steps records (init window_length path))))).
Proof.
  exact (wf_distinct _ _ _ (well_formed_steps window_length path records)).
Qed.

End RunInvariants.

Section InvariantExamples.

Import AttackDetector.

Local Abbreviation write_above := (AttackDetector.write_above working_sink).
Local Abbreviation write_ips_to_logs := (AttackDetector.write_ips_to_logs working_sink).
Local Abbreviation scan_for_attack := (AttackDetector.scan_for_attack working_sink).
Local Abbreviation process_data := (AttackDetector.process_data working_sink).
Local Abbreviation process_started := (AttackDetector.process_started working_sink).
Local Abbreviation step := (AttackDetector.step working_sink).
Local Abbreviation feed := (AttackDetector.feed (every_call working_sink)).
Local Abbreviation steps := (AttackDetector.steps (every_call working_sink)).

Lemma detector_current_labelled_witness :
  exists p,
    current_pane attacked = Some p /\
    current_timestamp attacked = Some (Pane.timestamp p) /\
    Window.contains (Pane.timestamp p) (window attacked) = false.
Proof.
  apply (detector_current_labelled (every_call working_sink) 5 "log"
           attack_feed). discriminate.
Defined.

Lemma alerts_only_under_attack_witness :
  In (Logged "log" "a")
    (events (process_data "w" "t4")
       (steps (firstn 7 attack_feed) (init 5 "log"))) /\
  status (state (process_data "w" "t4")
            (steps (firstn 7 attack_feed) (init 5 "log"))) = true.
Proof.
  assert (Hin : In (Logged "log" "a")
                  (events (process_data "w" "t4")
                     (steps (firstn 7 attack_feed) (init 5 "log")))).
  { vm_compute. right. right. left. reflexivity. }
  split; [exact Hin|].
  exact (proj1 (alerts_only_under_attack _ _ _ _ _ _ Hin)).
Defined.

End InvariantExamples.

(** ** AttackDetector: particular calls and feeds *)

Section DetectorCalls.

Import AttackDetector.

(** The behaviour of the log file during the call under study. *)
Variable sink : log_sink.

Local Abbreviation write_above := (AttackDetector.write_above sink).
Local Abbreviation write_ips_to_logs := (AttackDetector.write_ips_to_logs sink).
Local Abbreviation scan_for_attack := (AttackDetector.scan_for_attack sink).
Local Abbreviation process_data := (AttackDetector.process_data sink).
Local Abbreviation process_started := (AttackDetector.process_started sink).
Local Abbreviation step := (AttackDetector.step sink).

(** The behaviour of the log file during each call of a sequence. *)
Variable sinks : log_schedule.

Local Abbreviation feed := (AttackDetector.feed sinks).
Local Abbreviation steps := (AttackDetector.steps sinks).

(** X20. The first record a fresh detector is given is counted: the call
    returns, reports nothing, and leaves an empty window and a current pane
    of the record's timestamp holding one request, from the record's
    address. *)
Theorem first_record_is_counted (window_length : Z) (path ip ts : string) :
  process_data ip ts (init window_length path) =
  (Return tt,
   mk (Window.init window_length) (Some (Pane.mk ts [(ip, 1)] 1)) (Some ts)
      path false None None None,
   []).
Proof. rewrite process_data_fresh by reflexivity. reflexivity. Qed.

(** X21. A record whose timestamp is not the current one but is the
    timestamp of a pane of the window is ignored: the call returns, and
    neither the state nor the output changes. *)
Theorem record_of_seen_unit_ignored (d : t) (ip ts t0 : string) (p : Pane.t) :
  current_pane d = Some p ->
  current_timestamp d = Some t0 ->
  ts <> t0 ->
  Window.contains ts (window d) = true ->
  process_data ip ts d = (Return tt, d, []).
Proof.
  intros Hp Ht Hne Hc. rewrite (process_data_started sink ip ts p d Hp).
  unfold AttackDetector.process_started. rewrite Ht, (differs_neq ts t0 Hne), Hc.
  reflexivity.
Qed.

Lemma feed_unit_then_boundary (window_length : Z) (path : string)
  (ips : list string) (ts ts' ip' : string) :
  ips <> [] ->
  ts' <> ts ->
  feed (map (fun ip => (ip, ts)) ips ++ [(ip', ts')])
    (init window_length path) =
  (Return tt,
   mk (Window.shift_window (Pane.update_all ips (Pane.init ts))
         (Window.init window_length))
      (Some (Pane.init ts')) (Some ts') path false None None None,
   [Printed (Some ts) (Z.of_nat (length ips)) false;
    Shifted (Pane.update_all ips (Pane.init ts))]).
Proof.
  intros Hne Hts.
  assert (Hn : Pane.n_requests (Pane.update_all ips (Pane.init ts)) =
               Z.of_nat (length ips))
    by (rewrite update_all_n_requests; cbn; lia).
  destruct ips as [|ip0 ips]; [congruence|].
  unfold AttackDetector.feed. rewrite feed_from_app.
  cbn [map feed_from]. unfold bind at 1 2.
  rewrite process_data_fresh by reflexivity.
  unfold init, set_current, set_current_pane.
  cbn [window current_pane current_timestamp log_path status
       normal_request_stats normal_ip_stats normal_stats].
  rewrite feed_same_unit. cbn [feed_from]. unfold bind, ret. cbn [app].
  rewrite (process_data_started _ ip' ts'
             (Pane.update_all ips (Pane.update ip0 (Pane.init ts))))
    by reflexivity.
  unfold AttackDetector.process_started. cbn [current_timestamp window].
  rewrite (differs_neq ts' ts Hts).
  change (Window.contains ts' (Window.init window_length)) with false.
  change (1 <? Window.len (Window.init window_length)) with false.
  change (Pane.update_all ips (Pane.update ip0 (Pane.init ts)))
    with (Pane.update_all (ip0 :: ips) (Pane.init ts)).
  cbv beta iota zeta.
  cbn [negb app current_pane current_timestamp status window set_window
       set_current log_path normal_request_stats normal_ip_stats
       normal_stats].
  rewrite Hn. reflexivity.
Qed.

(** X22. From a fresh detector, the records of a first time unit [ts]
    (at least one) followed by the records [ip' :: ips'] of a second time
    unit [ts']: the feed returns, the pane of [ts] counts all its records
    and is rolled in, and the current pane of [ts'] counts the addresses
    [ips'] only -- the first record of the second unit, which crossed the
    boundary, is not in it. *)
Theorem second_unit_misses_first_record (window_length : Z) (path : string)
  (ips ips' : list string) (ts ts' ip' : string) :
  ips <> [] ->
  ts' <> ts ->
  feed (map (fun ip => (ip, ts)) ips ++
        (ip', ts') :: map (fun ip => (ip, ts')) ips')
    (init window_length path) =
  (Return tt,
   mk (Window.shift_window (Pane.update_all ips (Pane.init ts))
         (Window.init window_length))
      (Some (Pane.update_all ips' (Pane.init ts'))) (Some ts') path false
      None None None,
   [Printed (Some ts) (Z.of_nat (length ips)) false;
    Shifted (Pane.update_all ips (Pane.init ts))]).
Proof.
  intros Hne Hts.
  change ((ip', ts') :: map (fun ip => (ip, ts')) ips')
    with ([(ip', ts')] ++ map (fun ip => (ip, ts')) ips').
  pose proof (feed_unit_then_boundary window_length path ips ts ts' ip'
                Hne Hts) as H.
  unfold AttackDetector.feed in *.
  rewrite app_assoc, feed_from_app. unfold bind. rewrite H.
  rewrite feed_same_unit. rewrite app_nil_r. reflexivity.
Qed.

(** X23. [write_ips_to_logs] never changes the detector.  It raises
    [AttributeError] without a current pane and [TypeError] when the
    current pane has addresses but [normal_ip_stats] is [None]; otherwise
    it appends to [log_path], in the order of the dictionary, the addresses
    of the current pane whose counter is above the mean plus twice the
    deviation of [normal_ip_stats].  It returns when every append
    succeeds, all those addresses logged; when one fails it raises the
    exception of the first that does, the addresses before it logged and
    the ones after it not tried. *)
Theorem write_ips_to_logs_exact (d : t) :
  write_ips_to_logs d =
  match current_pane d with
  | None => (Raise AttributeError, d, [])
  | Some p =>
      match Pane.ip_list p, normal_ip_stats d with
      | [], _ => (Return tt, d, [])
      | _ :: _, None => (Raise TypeError, d, [])
      | _ :: _, Some s =>
          let run :=
            log_lines sink (log_path d)
              (map fst (filter (above s) (Pane.ip_list p))) in
          (fst run, d, snd run)
      end
  end /\
  (forall path ips,
      ((forall ip, In ip ips -> sink path ip = None) /\
       log_lines sink path ips = (Return tt, map (Logged path) ips)) \/
      (exists before ip rest e,
          ips = before ++ ip :: rest /\
          (forall x, In x before -> sink path x = None) /\
          sink path ip = Some e /\
          log_lines sink path ips =
          (Raise (SinkError e), map (Logged path) before))).
Proof.
  split.
  - unfold AttackDetector.write_ips_to_logs, bind, read_current_pane, ret,
      raise.
    destruct (current_pane d) as [p|]; [|reflexivity].
    rewrite write_above_eq.
    destruct (Pane.ip_list p); [reflexivity|].
    destruct (normal_ip_stats d); reflexivity.
  - intros path ips. induction ips as [|ip r IH].
    + left. split; [intros ip []|reflexivity].
    + cbn [log_lines]. destruct (sink path ip) as [e|] eqn:E.
      * right. exists [], ip, r, e. repeat split; [intros x []|exact E].
      * destruct IH as [[Hall Hrun]|(before & x & rest & e & -> & Hb & Hx & Hrun)].
        -- left. rewrite Hrun. split; [|reflexivity].
           intros y [<-|Hy]; [exact E|apply Hall, Hy].
        -- right. exists (ip :: before), x, rest, e. rewrite Hrun.
           repeat split; [|exact Hx].
           intros y [<-|Hy]; [exact E|apply Hb, Hy].
Qed.

(** X24. [check_ip_stats] with a current pane [p].  Under attack, with
    [normal_ip_stats] set, it changes nothing and tells whether an address
    of [p] is above the threshold of [normal_ip_stats].  In normal mode it
    first assigns the statistics of the last pane of the window to
    [normal_ip_stats] and compares against those; on an empty window it
    raises [IndexError] and changes nothing. *)
Theorem check_ip_stats_modes (d : t) (p : Pane.t) :
  current_pane d = Some p ->
  (forall nis,
      status d = true -> normal_ip_stats d = Some nis ->
      check_ip_stats d =
      (Return (existsb (above nis) (Pane.ip_list p)), d, [])) /\
  (forall q nis,
      status d = false ->
      Window.last_pane (Window.panes (window d)) = inr q ->
      Pane.ip_stats q = inr nis ->
      check_ip_stats d =
      (Return (existsb (above nis) (Pane.ip_list p)),
       set_normal_ip_stats nis d, [])) /\
  (status d = false -> Window.panes (window d) = [] ->
   check_ip_stats d = (Raise IndexError, d, [])).
Proof.
  intros Hp.
  cbv beta iota zeta delta
    [check_ip_stats bind gets modify ret raise read_current_pane].
  repeat split.
  - intros nis Hst Hnis. rewrite Hst. cbv beta iota zeta. rewrite Hp.
    cbv beta iota zeta. rewrite any_above_eq, Hnis.
    destruct (Pane.ip_list p); reflexivity.
  - intros q nis Hst Hq Hs. rewrite Hst. cbv beta iota zeta.
    rewrite Hq, Hs. cbv beta iota zeta.
    cbn [current_pane set_normal_ip_stats]. rewrite Hp. cbv beta iota zeta.
    rewrite any_above_eq. cbn [normal_ip_stats set_normal_ip_stats].
    destruct (Pane.ip_list p); reflexivity.
  - intros Hst He. rewrite Hst. cbv beta iota zeta. rewrite He. reflexivity.
Qed.

End DetectorCalls.

Section CallExamples.

Import AttackDetector.

Local Abbreviation write_above := (AttackDetector.write_above working_sink).
Local Abbreviation write_ips_to_logs := (AttackDetector.write_ips_to_logs working_sink).
Local Abbreviation scan_for_attack := (AttackDetector.scan_for_attack working_sink).
Local Abbreviation process_data := (AttackDetector.process_data working_sink).
Local Abbreviation process_started := (AttackDetector.process_started working_sink).
Local Abbreviation step := (AttackDetector.step working_sink).
Local Abbreviation feed := (AttackDetector.feed (every_call working_sink)).
Local Abbreviation steps := (AttackDetector.steps (every_call working_sink)).

Lemma record_of_seen_unit_ignored_witness :
  process_data "late" "t1" attacked = (Return tt, attacked, []).
Proof.
  apply (record_of_seen_unit_ignored working_sink attacked "late" "t1" "t4"
           (Pane.init "t4")).
  - vm_compute. reflexivity.
  - vm_compute. reflexivity.
  - discriminate.
  - vm_compute. reflexivity.
Defined.

Lemma second_unit_misses_first_record_witness :
  current_pane
    (state (feed [("a", "t1"); ("b", "t2"); ("c", "t2"); ("c", "t2")]%string)
       (init 5 "log")) =
  Some (Pane.mk "t2" [("c"%string, 2)] 2).
Proof.
  assert (Hne : ["a"]%string <> []) by discriminate.
  assert (Hts : "t2"%string <> "t1"%string) by discriminate.
  pose proof (second_unit_misses_first_record (every_call working_sink) 5
                "log" ["a"]%string
                ["c"; "c"]%string "t1" "t2" "b" Hne Hts) as H.
  unfold state. cbn [map app] in H. rewrite H. reflexivity.
Defined.

Lemma check_ip_stats_modes_witness :
  check_ip_stats (steps (firstn 3 aftermath) attacked) =
  (Return true, steps (firstn 3 aftermath) attacked, []).
Proof.
  assert (Hp : current_pane (steps (firstn 3 aftermath) attacked) =
               Some (Pane.mk "t4" [("a"%string, 3)] 3))
    by (vm_compute; reflexivity).
  assert (Hst : status (steps (firstn 3 aftermath) attacked) = true)
    by (vm_compute; reflexivity).
  assert (Hnis : normal_ip_stats (steps (firstn 3 aftermath) attacked) =
                 Some (1%float, 0%float)) by (vm_compute; reflexivity).
  rewrite (proj1 (check_ip_stats_modes _ _ Hp) _ Hst Hnis).
  vm_compute. reflexivity.
Defined.

End CallExamples.
